(** * tox-docker, tox 3 plugin hooks ([tox_docker/tox3/plugin.py])

    A shallow embedding of the four hook implementations of the plugin and
    of the two module-level registries they share, followed by the
    properties of the lifecycle (pull, run, health check, variable
    injection, stop) that the hooks implement.

    Python dictionaries keep insertion order, and the hooks iterate over
    them, so a dictionary is an association list with Python's update rule.
    The hooks raise and propagate exceptions while mutating module-level
    state, so they live in a state-and-exception monad whose state survives
    a raise.  The container engine is an external collaborator: every call
    to it is a transition of an abstract engine state, and each call is
    recorded, with its outcome, in a log that the theorems speak about. *)

From Stdlib Require Import String List.
Import ListNotations.
Open Scope string_scope.
Open Scope list_scope.

Set Implicit Arguments.

(** ** Python dictionaries with string keys *)

Module Dict.

Definition t (V : Type) : Type := list (string * V).

Definition empty {V : Type} : t V := [].

(** [d.get(k)]; [None] when the key is absent. *)
Fixpoint get {V : Type} (k : string) (d : t V) : option V :=
  match d with
  | [] => None
  | (k', v) :: rest => if String.eqb k k' then Some v else get k rest
  end.

(** [k in d] *)
Definition mem {V : Type} (k : string) (d : t V) : bool :=
  match get k d with Some _ => true | None => false end.

(** [d[k] = v]: an existing key keeps its position, a new key goes last. *)
Fixpoint set {V : Type} (k : string) (v : V) (d : t V) : t V :=
  match d with
  | [] => [(k, v)]
  | (k', v') :: rest =>
      if String.eqb k k' then (k', v) :: rest else (k', v') :: set k v rest
  end.

(** [d.setdefault(k, v)], for its effect on [d]. *)
Definition setdefault {V : Type} (k : string) (v : V) (d : t V) : t V :=
  if mem k d then d else set k v d.

(** [d.items()], in iteration order. *)
Definition items {V : Type} (d : t V) : list (string * V) := d.

Definition keys {V : Type} (d : t V) : list string := map fst d.

End Dict.

(** ** Exceptions *)

(** The texts of the [ValueError]s the plugin raises, kept as data: each
    constructor stands for one format string of the source and carries the
    identifier the text names. *)
Inductive message : Type :=
| NotFoundDontStop (container_name : string)
    (* f"Container {container_name!r} not found (from --docker-dont-stop)" *)
| MissingSection (container_name : string)
    (* f"Missing [docker:{container_name}] in tox.ini" *)
| SpecifiedMoreThanOnce (container_name : string)
    (* f"Container {container_name!r} specified more than once" *)
| OtherText (text : string).

Inductive exn : Type :=
| ValueError (m : message)
| KeyError (key : string)
| AttributeError (text : string)
| HealthCheckFailed (text : string)
| EngineError (text : string).

(** A computation that raises [e] is [inl e]; one that returns [a] is
    [inr a]. *)
Definition result (A : Type) : Type := (exn + A)%type.

Definition is_HealthCheckFailed (e : exn) : bool :=
  match e with HealthCheckFailed _ => true | _ => false end.

(** ** Data model *)

(** Modelled from the spec: [ContainerConfig] is declared in
    [tox_docker/config.py], which is not among the sources.  The hooks read
    only its [name]; the image reference and the dependency links are the
    attributes the data model of the specification lists for a container
    spec. *)
Record ContainerConfig : Type := {
  name : string;
  image : string;
  links : list string
}.

(** Modelled from the spec: the handle the container engine returns after a
    start (the engine's [Container] object): an opaque identifier, the
    network address and the host-mapped ports. *)
Record RunningContainer : Type := {
  engine_id : string;
  address : string;
  host_ports : list (string * nat)
}.

(** [venv]: the identity of a test environment, under which
    [ENV_CONTAINERS] is keyed, and [venv.envconfig.docker], its declared
    list of container names. *)
Record VirtualEnv : Type := {
  envname : string;
  docker : list string
}.

(** One call to the container-engine client, with what it returned or
    raised.  A start call is recorded with the running-container map it was
    handed. *)
Inductive event : Type :=
| Pull (c : ContainerConfig) (r : result unit)
| Run (c : ContainerConfig) (running : Dict.t RunningContainer)
      (r : result RunningContainer)
| HealthCheck (c : ContainerConfig) (k : RunningContainer) (r : result unit)
| Stop (l : list (ContainerConfig * RunningContainer)) (r : result unit).

Definition is_pull (ev : event) : bool :=
  match ev with Pull _ _ => true | _ => false end.
Definition is_run (ev : event) : bool :=
  match ev with Run _ _ _ => true | _ => false end.
Definition is_health_check (ev : event) : bool :=
  match ev with HealthCheck _ _ _ => true | _ => false end.
Definition is_stop (ev : event) : bool :=
  match ev with Stop _ _ => true | _ => false end.

(** The functions the plugin imports from [tox_docker.plugin] (not among
    the sources), taken as parameters: each is a transition of the engine
    state [W] that returns or raises.  [get_env_vars] is the pure function
    of the specification's Environment Variable Injector; it yields the
    mapping whose [items()] the hook walks. *)
Record Engine (W : Type) : Type := {
  docker_pull : ContainerConfig -> W -> result unit * W;
  docker_run :
    ContainerConfig -> Dict.t RunningContainer -> W ->
    result RunningContainer * W;
  docker_health_check :
    ContainerConfig -> RunningContainer -> W -> result unit * W;
  get_env_vars : ContainerConfig -> RunningContainer -> Dict.t string;
  stop_containers :
    list (ContainerConfig * RunningContainer) -> W -> result unit * W
}.

(** What [tox_configure] reads of the host's [Config] and the two functions
    it imports from [tox_docker.tox3.config] (not among the sources), taken
    as parameters. *)
Record ConfigReader (Config : Type) : Type := {
  docker_dont_stop : Config -> list string;
  discover_container_configs : Config -> list string;
  parse_container_config :
    Config -> string -> list string -> result ContainerConfig
}.

(** ** State *)

(** The two module-level dictionaries of the plugin, the variable map
    [venv.envconfig.setenv] of every test environment, the state of the
    container engine and the log of the calls made to it. *)
Record State (W : Type) : Type := mkState {
  CONTAINER_CONFIGS : Dict.t ContainerConfig;
  ENV_CONTAINERS : Dict.t (Dict.t RunningContainer);
  setenv : string -> Dict.t string;
  engine_state : W;
  engine_calls : list event
}.

Arguments mkState {W} _ _ _ _ _.

(** ** The state-and-exception monad *)

Definition M (W A : Type) : Type := State W -> result A * State W.

Definition ret {W A : Type} (a : A) : M W A := fun s => (inr a, s).

Definition raise {W A : Type} (e : exn) : M W A := fun s => (inl e, s).

Definition bind {W A B : Type} (m : M W A) (f : A -> M W B) : M W B :=
  fun s =>
    match m s with
    | (inl e, s') => (inl e, s')
    | (inr a, s') => f a s'
    end.

(** [try: m except ...]: the outcome of [m] as a value. *)
Definition try_ {W A : Type} (m : M W A) : M W (result A) :=
  fun s => let (r, s') := m s in (inr r, s').

Definition lift {W A : Type} (r : result A) : M W A := fun s => (r, s).

Definition gets {W A : Type} (f : State W -> A) : M W A :=
  fun s => (inr (f s), s).

Declare Scope monad_scope.
Delimit Scope monad_scope with monad.
Notation "x <- m ;; k" := (bind m (fun x => k))
  (at level 61, m at next level, right associativity) : monad_scope.
Notation "m ;; k" := (bind m (fun _ => k))
  (at level 61, right associativity) : monad_scope.
Open Scope monad_scope.

(** [for x in l: body(x)] *)
Fixpoint for_each {W A : Type} (l : list A) (body : A -> M W unit) : M W unit :=
  match l with
  | [] => ret tt
  | x :: rest => body x ;; for_each rest body
  end.

(** ** Resolution of an environment's container list
    ([tox_runtest_pre], lines 61-70) *)

(** The first loop of [tox_runtest_pre]: [seen] is the set of names met so
    far and [env_container_configs] the list built so far. *)
Fixpoint resolve_loop (CONFIGS : Dict.t ContainerConfig)
    (container_names seen : list string)
    (env_container_configs : list ContainerConfig)
  : result (list ContainerConfig) :=
  match container_names with
  | [] => inr env_container_configs
  | container_name :: rest =>
      match Dict.get container_name CONFIGS with
      | None => inl (ValueError (MissingSection container_name))
      | Some container_config =>
          if existsb (String.eqb container_name) seen
          then inl (ValueError (SpecifiedMoreThanOnce container_name))
          else resolve_loop CONFIGS rest (container_name :: seen)
                 (env_container_configs ++ [container_config])
      end
  end.

Definition resolve_container_set (CONFIGS : Dict.t ContainerConfig)
    (container_names : list string) : result (list ContainerConfig) :=
  resolve_loop CONFIGS container_names [] [].

(** ** Validation of [--docker-dont-stop] ([tox_configure], lines 41-45) *)

Fixpoint validate_dont_stop (container_config_names dont_stop : list string)
  : result unit :=
  match dont_stop with
  | [] => inr tt
  | container_name :: rest =>
      if existsb (String.eqb container_name) container_config_names
      then validate_dont_stop container_config_names rest
      else inl (ValueError (NotFoundDontStop container_name))
  end.

(** ** Variable injection ([tox_runtest_pre], lines 95-97) *)

(** The inner loop: a variable is set only when its name is not yet in the
    map. *)
Fixpoint update_if_not_present (vars : list (string * string))
    (env : Dict.t string) : Dict.t string :=
  match vars with
  | [] => env
  | (var, val) :: rest =>
      update_if_not_present rest
        (if Dict.mem var env then env else Dict.set var val env)
  end.

(** ** [env_containers.items()] in [tox_runtest_post] *)

(** [ENV_CONTAINERS.get(venv, [])] yields the environment's dictionary, or
    the default, which is a list. *)
Inductive dict_or_list : Type :=
| a_dict (d : Dict.t RunningContainer)
| a_list (l : list RunningContainer).

Definition items_of (v : dict_or_list)
  : result (list (string * RunningContainer)) :=
  match v with
  | a_dict d => inr (Dict.items d)
  | a_list _ => inl (AttributeError "'list' object has no attribute 'items'")
  end.

(** [[(CONTAINER_CONFIGS[name], container) for name, container in items]] *)
Fixpoint containers_and_configs_of (CONFIGS : Dict.t ContainerConfig)
    (its : list (string * RunningContainer))
  : result (list (ContainerConfig * RunningContainer)) :=
  match its with
  | [] => inr []
  | (container_name, container) :: rest =>
      match Dict.get container_name CONFIGS with
      | None => inl (KeyError container_name)
      | Some container_config =>
          match containers_and_configs_of CONFIGS rest with
          | inl e => inl e
          | inr l => inr ((container_config, container) :: l)
          end
      end
  end.

(** ** The hooks *)

Section Hooks.

Context {W : Type} (engine : Engine W).

(** *** Calls to the container engine, logged *)

Definition logged {A : Type} (call : W -> result A * W)
    (entry : result A -> event) : M W A :=
  fun s =>
    let (r, w) := call (engine_state s) in
    (r, mkState (CONTAINER_CONFIGS s) (ENV_CONTAINERS s) (setenv s) w
          (engine_calls s ++ [entry r])).

Definition call_docker_pull (c : ContainerConfig) : M W unit :=
  logged (docker_pull engine c) (Pull c).

Definition call_docker_run (c : ContainerConfig)
    (containers : Dict.t RunningContainer) : M W RunningContainer :=
  logged (docker_run engine c containers) (Run c containers).

Definition call_docker_health_check (c : ContainerConfig)
    (k : RunningContainer) : M W unit :=
  logged (docker_health_check engine c k) (HealthCheck c k).

Definition call_stop_containers
    (l : list (ContainerConfig * RunningContainer)) : M W unit :=
  logged (stop_containers engine l) (Stop l).

(** *** Access to the registries *)

(** [CONTAINER_CONFIGS[container_name]] *)
Definition config_of (container_name : string) : M W ContainerConfig :=
  fun s =>
    match Dict.get container_name (CONTAINER_CONFIGS s) with
    | Some c => (inr c, s)
    | None => (inl (KeyError container_name), s)
    end.

(** [ENV_CONTAINERS.setdefault(venv, {})] *)
Definition setdefault_env_containers (venv : VirtualEnv) : M W unit :=
  fun s =>
    (inr tt,
     mkState (CONTAINER_CONFIGS s)
       (Dict.setdefault (envname venv) Dict.empty (ENV_CONTAINERS s))
       (setenv s) (engine_state s) (engine_calls s)).

(** [ENV_CONTAINERS[venv]].  The local [containers] of [tox_runtest_pre]
    is an alias of this dictionary: what is written through the alias is
    written here. *)
Definition env_containers_of (venv : VirtualEnv)
  : M W (Dict.t RunningContainer) :=
  fun s =>
    match Dict.get (envname venv) (ENV_CONTAINERS s) with
    | Some d => (inr d, s)
    | None => (inl (KeyError (envname venv)), s)
    end.

(** [containers[key] = container] *)
Definition register (venv : VirtualEnv) (key : string)
    (container : RunningContainer) : M W unit :=
  containers <- env_containers_of venv ;;
  fun s =>
    (inr tt,
     mkState (CONTAINER_CONFIGS s)
       (Dict.set (envname venv) (Dict.set key container containers)
          (ENV_CONTAINERS s))
       (setenv s) (engine_state s) (engine_calls s)).

(** The inner loop of the injection, on [venv.envconfig.setenv]. *)
Definition inject (venv : VirtualEnv) (vars : Dict.t string) : M W unit :=
  fun s =>
    (inr tt,
     mkState (CONTAINER_CONFIGS s) (ENV_CONTAINERS s)
       (fun e =>
          if String.eqb e (envname venv)
          then update_if_not_present (Dict.items vars) (setenv s e)
          else setenv s e)
       (engine_state s) (engine_calls s)).

(** *** [tox_runtest_pre] *)

(** Lines 72-73. *)
Definition pull_loop (env_container_configs : list ContainerConfig)
  : M W unit :=
  for_each env_container_configs call_docker_pull.

(** Lines 78-80. *)
Definition run_loop (venv : VirtualEnv)
    (env_container_configs : list ContainerConfig) : M W unit :=
  for_each env_container_configs
    (fun container_config =>
       containers <- env_containers_of venv ;;
       container <- call_docker_run container_config containers ;;
       register venv (name container_config) container).

(** Lines 82-88: the loop ends at the first [HealthCheckFailed]; any
    other exception propagates. *)
Fixpoint health_check_loop (its : list (string * RunningContainer))
  : M W unit :=
  match its with
  | [] => ret tt
  | (container_name, container) :: rest =>
      container_config <- config_of container_name ;;
      outcome <- try_ (call_docker_health_check container_config container) ;;
      match outcome with
      | inr _ => health_check_loop rest
      | inl e => if is_HealthCheckFailed e then ret tt else raise e
      end
  end.

(** Lines 90-97. *)
Definition inject_loop (venv : VirtualEnv)
    (its : list (string * RunningContainer)) : M W unit :=
  for_each its
    (fun '(container_name, container) =>
       container_config <- config_of container_name ;;
       inject venv (get_env_vars engine container_config container)).

Definition tox_runtest_pre (venv : VirtualEnv) : M W unit :=
  let container_names := docker venv in
  CONFIGS <- gets (@CONTAINER_CONFIGS W) ;;
  env_container_configs <-
    lift (resolve_container_set CONFIGS container_names) ;;
  pull_loop env_container_configs ;;
  setdefault_env_containers venv ;;
  run_loop venv env_container_configs ;;
  containers <- env_containers_of venv ;;
  health_check_loop (Dict.items containers) ;;
  containers <- env_containers_of venv ;;
  inject_loop venv (Dict.items containers).

(** *** [tox_runtest_post] *)

Definition tox_runtest_post (venv : VirtualEnv) : M W unit :=
  env_containers <-
    gets (fun s : State W =>
            match Dict.get (envname venv) (ENV_CONTAINERS s) with
            | Some d => a_dict d
            | None => a_list []
            end) ;;
  its <- lift (items_of env_containers) ;;
  CONFIGS <- gets (@CONTAINER_CONFIGS W) ;;
  containers_and_configs <- lift (containers_and_configs_of CONFIGS its) ;;
  call_stop_containers containers_and_configs.

(** *** [tox_configure] *)

Section Configure.

Context {Config : Type} (reader : ConfigReader Config).

(** [CONTAINER_CONFIGS[container_name] = container_config] *)
Definition store_config (container_name : string)
    (container_config : ContainerConfig) : M W unit :=
  fun s =>
    (inr tt,
     mkState
       (Dict.set container_name container_config (CONTAINER_CONFIGS s))
       (ENV_CONTAINERS s) (setenv s) (engine_state s) (engine_calls s)).

(** Lines 48-51. *)
Definition parse_loop (config : Config)
    (container_config_names : list string) : M W unit :=
  for_each container_config_names
    (fun container_name =>
       container_config <-
         lift (parse_container_config reader config container_name
                 container_config_names) ;;
       store_config container_name container_config).

Definition tox_configure (config : Config) : M W unit :=
  let container_config_names := discover_container_configs reader config in
  lift (validate_dont_stop container_config_names
          (docker_dont_stop reader config)) ;;
  parse_loop config container_config_names.

End Configure.

End Hooks.

(** ** Reading the log of engine calls *)

(** The containers started, in start order: the successful start calls. *)
Fixpoint started_of (log : list event)
  : list (ContainerConfig * RunningContainer) :=
  match log with
  | [] => []
  | Run c _ (inr k) :: rest => (c, k) :: started_of rest
  | _ :: rest => started_of rest
  end.

(** The containers whose health check was attempted, in order. *)
Fixpoint checked_of (log : list event)
  : list (ContainerConfig * RunningContainer) :=
  match log with
  | [] => []
  | HealthCheck c k _ :: rest => (c, k) :: checked_of rest
  | _ :: rest => checked_of rest
  end.

(** The specs for which a start call was issued, in order. *)
Fixpoint run_configs_of (log : list event) : list ContainerConfig :=
  match log with
  | [] => []
  | Run c _ _ :: rest => c :: run_configs_of rest
  | _ :: rest => run_configs_of rest
  end.

(** [ENV_CONTAINERS.get(venv, {})], the running-container map of an
    environment as the theorems read it. *)
Definition env_map {W : Type} (s : State W) (venv : VirtualEnv)
  : Dict.t RunningContainer :=
  match Dict.get (envname venv) (ENV_CONTAINERS s) with
  | Some d => d
  | None => Dict.empty
  end.

(** Every spec is stored under its own name: what [tox_configure] builds
    when [parse_container_config] gives the spec the name it was asked
    for. *)
Definition registry_wf (CONFIGS : Dict.t ContainerConfig) : Prop :=
  forall n c, Dict.get n CONFIGS = Some c -> name c = n.

(** ** The logs of the three engine loops of [tox_runtest_pre] *)

(** [pull_log cfgs log r]: pulling [cfgs] in turn logs [log] and ends in
    [r]. *)
Inductive pull_log : list ContainerConfig -> list event -> result unit -> Prop :=
| pull_log_done : pull_log [] [] (inr tt)
| pull_log_ok c cs log r :
    pull_log cs log r -> pull_log (c :: cs) (Pull c (inr tt) :: log) r
| pull_log_raise c cs e :
    pull_log (c :: cs) [Pull c (inl e)] (inl e).

(** [run_log m cfgs log r m']: starting [cfgs] in turn from the map [m]
    logs [log], ends in [r] and leaves the map [m']. *)
Inductive run_log : Dict.t RunningContainer -> list ContainerConfig ->
    list event -> result unit -> Dict.t RunningContainer -> Prop :=
| run_log_done m : run_log m [] [] (inr tt) m
| run_log_ok m c k cs log r m' :
    run_log (Dict.set (name c) k m) cs log r m' ->
    run_log m (c :: cs) (Run c m (inr k) :: log) r m'
| run_log_raise m c cs e :
    run_log m (c :: cs) [Run c m (inl e)] (inl e) m.

(** [health_log CONFIGS its log r]: health-checking the entries [its] in
    turn logs [log] and ends in [r]. *)
Inductive health_log (CONFIGS : Dict.t ContainerConfig) :
    list (string * RunningContainer) -> list event -> result unit -> Prop :=
| health_log_done : health_log CONFIGS [] [] (inr tt)
| health_log_ok n k c rest log r :
    Dict.get n CONFIGS = Some c ->
    health_log CONFIGS rest log r ->
    health_log CONFIGS ((n, k) :: rest) (HealthCheck c k (inr tt) :: log) r
| health_log_break n k c rest text :
    Dict.get n CONFIGS = Some c ->
    health_log CONFIGS ((n, k) :: rest)
      [HealthCheck c k (inl (HealthCheckFailed text))] (inr tt)
| health_log_raise n k c rest e :
    Dict.get n CONFIGS = Some c ->
    is_HealthCheckFailed e = false ->
    health_log CONFIGS ((n, k) :: rest) [HealthCheck c k (inl e)] (inl e)
| health_log_missing n k rest :
    Dict.get n CONFIGS = None ->
    health_log CONFIGS ((n, k) :: rest) [] (inl (KeyError n)).

(** The effect of the injection loop on the variable map, as a function. *)
Fixpoint inject_all (CONFIGS : Dict.t ContainerConfig)
    (vars_of : ContainerConfig -> RunningContainer -> Dict.t string)
    (its : list (string * RunningContainer)) (env : Dict.t string)
  : result unit * Dict.t string :=
  match its with
  | [] => (inr tt, env)
  | (n, k) :: rest =>
      match Dict.get n CONFIGS with
      | None => (inl (KeyError n), env)
      | Some c =>
          inject_all CONFIGS vars_of rest
            (update_if_not_present (Dict.items (vars_of c k)) env)
      end
  end.

(** How one run of [tox_runtest_pre] ends: with which outcome, having
    logged which engine calls, with which running-container map for the
    environment ([None]: [ENV_CONTAINERS] was not touched) and which
    variable map.  One constructor per phase the hook can stop in. *)
Inductive pre_run (CONFIGS : Dict.t ContainerConfig)
    (vars_of : ContainerConfig -> RunningContainer -> Dict.t string)
    (names : list string) (m0 : Dict.t RunningContainer)
    (env0 : Dict.t string) :
    result unit -> list event -> option (Dict.t RunningContainer) ->
    Dict.t string -> Prop :=
| pre_unresolved e :
    resolve_container_set CONFIGS names = inl e ->
    pre_run CONFIGS vars_of names m0 env0 (inl e) [] None env0
| pre_pull_raised cfgs P e :
    resolve_container_set CONFIGS names = inr cfgs ->
    pull_log cfgs P (inl e) ->
    pre_run CONFIGS vars_of names m0 env0 (inl e) P None env0
| pre_run_raised cfgs P R e m :
    resolve_container_set CONFIGS names = inr cfgs ->
    pull_log cfgs P (inr tt) ->
    run_log m0 cfgs R (inl e) m ->
    pre_run CONFIGS vars_of names m0 env0 (inl e) (P ++ R) (Some m) env0
| pre_health_raised cfgs P R m H e :
    resolve_container_set CONFIGS names = inr cfgs ->
    pull_log cfgs P (inr tt) ->
    run_log m0 cfgs R (inr tt) m ->
    health_log CONFIGS (Dict.items m) H (inl e) ->
    pre_run CONFIGS vars_of names m0 env0 (inl e) (P ++ R ++ H) (Some m) env0
| pre_injected cfgs P R m H r env :
    resolve_container_set CONFIGS names = inr cfgs ->
    pull_log cfgs P (inr tt) ->
    run_log m0 cfgs R (inr tt) m ->
    health_log CONFIGS (Dict.items m) H (inr tt) ->
    inject_all CONFIGS vars_of (Dict.items m) env0 = (r, env) ->
    pre_run CONFIGS vars_of names m0 env0 r (P ++ R ++ H) (Some m) env.

(** ** A small configuration, for the examples

    Three container sections: [web] links to [db]; an engine that always
    starts a container, refuses to pull the image of [bad_image] and finds
    [unhealthy] unhealthy; and a state in which no hook has run yet. *)

Definition db_config : ContainerConfig :=
  {| name := "db"; image := "postgres:13"; links := [] |}.

Definition web_config : ContainerConfig :=
  {| name := "web"; image := "nginx:1.21"; links := ["db"] |}.

Definition cache_config : ContainerConfig :=
  {| name := "cache"; image := "redis:6"; links := [] |}.

Definition example_configs : Dict.t ContainerConfig :=
  [("db", db_config); ("web", web_config); ("cache", cache_config)].

Definition container_for (c : ContainerConfig) : RunningContainer :=
  {| engine_id := (name c ++ "-1")%string; address := "127.0.0.1"; host_ports := [] |}.

Definition example_engine (bad_image unhealthy : string) : Engine nat :=
  {| docker_pull := fun c w =>
       (if String.eqb (name c) bad_image
        then inl (EngineError "pull failed") else inr tt, S w);
     docker_run := fun c _ w => (inr (container_for c), S w);
     docker_health_check := fun c _ w =>
       (if String.eqb (name c) unhealthy
        then inl (HealthCheckFailed "timed out") else inr tt, S w);
     get_env_vars := fun c k => [((name c ++ "_HOST")%string, address k)];
     stop_containers := fun _ w => (inr tt, S w) |}.

Definition no_variables : string -> Dict.t string := fun _ => [].

Definition example_state (env : string -> Dict.t string) : State nat :=
  mkState example_configs [] env 0 [].

(** The host's [Config] of the examples: the [--docker-dont-stop] values
    and the names of the container sections. *)
Record ExampleConfig : Type := {
  option_docker_dont_stop : list string;
  docker_sections : list string
}.

Definition example_reader : ConfigReader ExampleConfig :=
  {| docker_dont_stop := option_docker_dont_stop;
     discover_container_configs := docker_sections;
     parse_container_config := fun _ container_name _ =>
       inr {| name := container_name; image := (container_name ++ ":latest")%string;
              links := [] |} |}.

(** The first entry of the exclusion list that is not a known name. *)
Definition first_unknown (known dont_stop : list string) (x : string) : Prop :=
  exists before rest,
    dont_stop = before ++ x :: rest /\
    (forall y, In y before -> In y known) /\
    ~ In x known.

(** The cleanup-completeness property the specification states for the
    running-container map of an environment after teardown: no entry whose
    name is outside the exclusion set [dont_stop]. *)
Definition cleanup_complete (dont_stop : list string)
    (m : Dict.t RunningContainer) : Prop :=
  forall n, Dict.mem n m = true -> In n dont_stop.

(** A test environment named [py] with the given [docker] list. *)
Definition py (container_names : list string) : VirtualEnv :=
  {| envname := "py"; docker := container_names |}.

(** The runs of the hooks that the examples look at. *)

(** [docker = db, web, cache]; the health check of [web] fails. *)
Definition web_unhealthy_run : result unit * State nat :=
  tox_runtest_pre (example_engine "" "web") (py ["db"; "web"; "cache"])
    (example_state no_variables).

(** [docker = db, web]; the pull of the image of [web] raises. *)
Definition web_pull_raises_run : result unit * State nat :=
  tox_runtest_pre (example_engine "web" "") (py ["db"; "web"])
    (example_state no_variables).


(** The test environment declares [db_HOST] itself. *)
Definition preset_variables : string -> Dict.t string :=
  fun e => if String.eqb e "py" then [("db_HOST", "10.0.0.7")] else [].

Definition preset_run : result unit * State nat :=
  tox_runtest_pre (example_engine "" "") (py ["db"])
    (example_state preset_variables).

(** The state after a successful setup of [docker = db], and the teardown
    that follows it. *)
Definition db_running_state : State nat :=
  snd (tox_runtest_pre (example_engine "" "") (py ["db"])
         (example_state no_variables)).

Definition db_teardown : result unit * State nat :=
  tox_runtest_post (example_engine "" "") (py ["db"]) db_running_state.

(** [--docker-dont-stop ghost --docker-dont-stop phantom], with [db] the
    only container section. *)
Definition two_unknown : ExampleConfig :=
  {| option_docker_dont_stop := ["ghost"; "phantom"];
     docker_sections := ["db"] |}.

(** ** Further readings and examples *)

(** The call returned (it did not raise). *)
Definition event_returned (ev : event) : bool :=
  match ev with
  | Pull _ (inr _) | Run _ _ (inr _) | HealthCheck _ _ (inr _)
  | Stop _ (inr _) => true
  | _ => false
  end.

(** An engine whose start of [bad_start] raises and whose health check of
    [bad_check] raises an exception that is not [HealthCheckFailed]. *)
Definition faulty_engine (bad_start bad_check : string) : Engine nat :=
  {| docker_pull := fun _ w => (inr tt, S w);
     docker_run := fun c _ w =>
       (if String.eqb (name c) bad_start
        then inl (EngineError "start failed")
        else inr (container_for c), S w);
     docker_health_check := fun c _ w =>
       (if String.eqb (name c) bad_check
        then inl (EngineError "connection refused") else inr tt, S w);
     get_env_vars := fun c k => [((name c ++ "_HOST")%string, address k)];
     stop_containers := fun _ w => (inr tt, S w) |}.

(** An engine whose containers all export the variable [HOST]. *)
Definition shared_variable_engine : Engine nat :=
  {| docker_pull := fun _ w => (inr tt, S w);
     docker_run := fun c _ w => (inr (container_for c), S w);
     docker_health_check := fun _ _ w => (inr tt, S w);
     get_env_vars := fun _ k => [("HOST", engine_id k)];
     stop_containers := fun _ w => (inr tt, S w) |}.

(** A reader whose parse of the section [broken] raises. *)
Definition strict_reader : ConfigReader ExampleConfig :=
  {| docker_dont_stop := option_docker_dont_stop;
     discover_container_configs := docker_sections;
     parse_container_config := fun _ container_name _ =>
       if String.eqb container_name "broken"
       then inl (ValueError (OtherText "image is required"))
       else inr {| name := container_name;
                   image := (container_name ++ ":latest")%string;
                   links := [] |} |}.

Definition db_web_sections : ExampleConfig :=
  {| option_docker_dont_stop := ["db"];
     docker_sections := ["db"; "web"] |}.

Definition broken_section : ExampleConfig :=
  {| option_docker_dont_stop := [];
     docker_sections := ["db"; "broken"; "web"] |}.

Definition empty_state : State nat := mkState [] [] no_variables 0 [].

(** The state in which [py] runs a container registered under a name that
    has no spec. *)
Definition orphan_state : State nat :=
  mkState example_configs [("py", [("ghost", container_for db_config)])]
    no_variables 0 [].

(** The runs of the hooks that the further examples look at. *)

Definition configure_run : result unit * State nat :=
  tox_configure example_reader db_web_sections empty_state.

Definition configure_broken_run : result unit * State nat :=
  tox_configure strict_reader broken_section empty_state.

(** [docker = db, web, cache]; the start of [web] raises. *)
Definition start_raises_run : result unit * State nat :=
  tox_runtest_pre (faulty_engine "web" "") (py ["db"; "web"; "cache"])
    (example_state no_variables).

(** [docker = db, web, cache]; the health check of [web] raises an
    exception that is not [HealthCheckFailed]. *)
Definition check_raises_run : result unit * State nat :=
  tox_runtest_pre (faulty_engine "" "web") (py ["db"; "web"; "cache"])
    (example_state no_variables).

(** [docker = db, web]; every call returns. *)
Definition all_returned_run : result unit * State nat :=
  tox_runtest_pre (example_engine "" "") (py ["db"; "web"])
    (example_state no_variables).

(** [docker = db, web]; both containers export [HOST]. *)
Definition shared_variable_run : result unit * State nat :=
  tox_runtest_pre shared_variable_engine (py ["db"; "web"])
    (example_state no_variables).

(** An environment with an empty [docker] list. *)
Definition no_containers_run : result unit * State nat :=
  tox_runtest_pre (example_engine "" "") (py []) (example_state no_variables).

(** The teardown after the setup in which the health check of [web]
    failed. *)
Definition web_unhealthy_teardown : result unit * State nat :=
  tox_runtest_post (example_engine "" "web") (py ["db"; "web"; "cache"])
    (snd web_unhealthy_run).

(** The running-container map after the containers [st] were registered, in
    this order, into the map [m]: each [containers[container_config.name] =
    container] of line 80 in turn. *)
Definition registered_after (m : Dict.t RunningContainer)
    (st : list (ContainerConfig * RunningContainer))
  : Dict.t RunningContainer :=
  fold_left (fun d ck => Dict.set (name (fst ck)) (snd ck) d) st m.




(** * Properties *)

(** ** Dictionaries *)

Lemma string_eqb_false (a b : string) : a <> b -> String.eqb a b = false.
Proof. intro H. apply String.eqb_neq. exact H. Qed.

Lemma existsb_eqb_In (x : string) (l : list string) :
  existsb (String.eqb x) l = true <-> In x l.
Proof.
  rewrite existsb_exists. split.
  - intros [y [Hin Heq]]. apply String.eqb_eq in Heq. subst y. exact Hin.
  - intro Hin. exists x. split; [exact Hin | apply String.eqb_refl].
Qed.

Lemma existsb_eqb_not_In (x : string) (l : list string) :
  existsb (String.eqb x) l = false <-> ~ In x l.
Proof.
  rewrite <- existsb_eqb_In. destruct (existsb (String.eqb x) l); split; intro H.
  - discriminate.
  - exfalso. apply H. reflexivity.
  - intro H'. discriminate.
  - reflexivity.
Qed.

Lemma dict_get_set_same (V : Type) (k : string) (v : V) (d : Dict.t V) :
  Dict.get k (Dict.set k v d) = Some v.
Proof.
  induction d as [|[k' v'] rest IH]; simpl.
  - rewrite String.eqb_refl. reflexivity.
  - destruct (String.eqb k k') eqn:E; simpl; rewrite E; [reflexivity | exact IH].
Qed.

Lemma dict_get_set_other (V : Type) (k k' : string) (v : V) (d : Dict.t V) :
  k' <> k -> Dict.get k' (Dict.set k v d) = Dict.get k' d.
Proof.
  intro Hne. induction d as [|[k0 v0] rest IH]; simpl.
  - rewrite (string_eqb_false Hne). reflexivity.
  - destruct (String.eqb k k0) eqn:E; simpl.
    + apply String.eqb_eq in E. subst k0.
      rewrite (string_eqb_false Hne). reflexivity.
    + destruct (String.eqb k' k0); [reflexivity | exact IH].
Qed.

Lemma dict_mem_set_mono (V : Type) (k k' : string) (v : V) (d : Dict.t V) :
  Dict.mem k' d = true -> Dict.mem k' (Dict.set k v d) = true.
Proof.
  unfold Dict.mem. intro H.
  destruct (String.eqb_spec k' k) as [->|Hne].
  - rewrite dict_get_set_same. reflexivity.
  - rewrite (dict_get_set_other v d Hne). exact H.
Qed.

Lemma dict_mem_set_same (V : Type) (k : string) (v : V) (d : Dict.t V) :
  Dict.mem k (Dict.set k v d) = true.
Proof. unfold Dict.mem. rewrite dict_get_set_same. reflexivity. Qed.

Lemma dict_set_fresh (V : Type) (k : string) (v : V) (d : Dict.t V) :
  Dict.get k d = None -> Dict.set k v d = d ++ [(k, v)].
Proof.
  induction d as [|[k' v'] rest IH]; simpl; intro H.
  - reflexivity.
  - destruct (String.eqb k k'); [discriminate | ].
    rewrite (IH H). reflexivity.
Qed.

Lemma dict_get_In (V : Type) (k : string) (v : V) (d : Dict.t V) :
  Dict.get k d = Some v -> In (k, v) d.
Proof.
  induction d as [|[k' v'] rest IH]; simpl; intro H.
  - discriminate.
  - destruct (String.eqb_spec k k') as [->|Hne].
    + injection H as ->. left. reflexivity.
    + right. apply IH. exact H.
Qed.

Lemma dict_get_None_keys (V : Type) (k : string) (d : Dict.t V) :
  Dict.get k d = None <-> ~ In k (Dict.keys d).
Proof.
  induction d as [|[k' v'] rest IH]; simpl.
  - split; [intros _ []| reflexivity].
  - destruct (String.eqb_spec k k') as [->|Hne].
    + split; [discriminate | intro H; exfalso; apply H; left; reflexivity].
    + rewrite IH. split.
      * intros H [Heq|Hin]; [apply Hne; symmetry; exact Heq | exact (H Hin)].
      * intros H Hin. apply H. right. exact Hin.
Qed.

Lemma dict_get_setdefault (V : Type) (k : string) (v : V) (d : Dict.t V) :
  Dict.get k (Dict.setdefault k v d)
  = Some (match Dict.get k d with Some v' => v' | None => v end).
Proof.
  unfold Dict.setdefault, Dict.mem.
  destruct (Dict.get k d) eqn:E.
  - exact E.
  - apply dict_get_set_same.
Qed.

Lemma dict_get_setdefault_other (V : Type) (k k' : string) (v : V)
    (d : Dict.t V) :
  k' <> k -> Dict.get k' (Dict.setdefault k v d) = Dict.get k' d.
Proof.
  intro Hne. unfold Dict.setdefault.
  destruct (Dict.mem k d); [reflexivity | apply dict_get_set_other; exact Hne].
Qed.

(** ** Splitting a log around one of its entries *)

Lemma split_at_entry (A : Type) (x : A) (l1 l2 p q : list A) :
  l1 ++ x :: l2 = p ++ q ->
  (exists l, p = l1 ++ x :: l /\ l2 = l ++ q) \/
  (exists l, l1 = p ++ l /\ q = l ++ x :: l2).
Proof.
  revert l1. induction p as [|y p IH]; intros l1 H.
  - right. exists l1. split; [reflexivity | symmetry; exact H].
  - destruct l1 as [|z l1]; simpl in H.
    + injection H as <- ->. left. exists p. split; reflexivity.
    + injection H as <- H. destruct (IH l1 H) as [[l [-> ->]]|[l [-> ->]]].
      * left. exists l. split; reflexivity.
      * right. exists l. split; reflexivity.
Qed.

(** An entry that satisfies none of what the entries of [p] satisfy lies
    in [q]. *)
Lemma split_past (A : Type) (P : A -> Prop) (x : A) (l1 l2 p q : list A) :
  l1 ++ x :: l2 = p ++ q -> Forall P p -> ~ P x ->
  exists l, l1 = p ++ l /\ q = l ++ x :: l2.
Proof.
  intros H Hp Hx. destruct (split_at_entry x l1 l2 p q H) as [[l [-> _]]|Hr].
  - exfalso. apply Hx. rewrite Forall_forall in Hp. apply Hp.
    apply in_or_app. right. left. reflexivity.
  - exact Hr.
Qed.

(** Likewise on the other side. *)
Lemma split_before (A : Type) (P : A -> Prop) (x : A) (l1 l2 p q : list A) :
  l1 ++ x :: l2 = p ++ q -> Forall P q -> ~ P x ->
  exists l, p = l1 ++ x :: l /\ l2 = l ++ q.
Proof.
  intros H Hq Hx. destruct (split_at_entry x l1 l2 p q H) as [Hl|[l [_ ->]]].
  - exact Hl.
  - exfalso. apply Hx. rewrite Forall_forall in Hq. apply Hq.
    apply in_or_app. right. left. reflexivity.
Qed.

(** ** The loops of [tox_runtest_pre], one by one *)

Section Loops.

Context {W : Type} (engine : Engine W).

Lemma pull_loop_spec (cfgs : list ContainerConfig) :
  forall (s s' : State W) (r : result unit),
    pull_loop engine cfgs s = (r, s') ->
    CONTAINER_CONFIGS s' = CONTAINER_CONFIGS s /\
    ENV_CONTAINERS s' = ENV_CONTAINERS s /\
    setenv s' = setenv s /\
    exists P, engine_calls s' = engine_calls s ++ P /\ pull_log cfgs P r.
Proof.
  unfold pull_loop.
  induction cfgs as [|c cs IH]; intros s s' r H; simpl in H.
  - injection H as <- <-. repeat split; try reflexivity.
    exists []. rewrite app_nil_r. split; [reflexivity | constructor].
  - unfold bind, call_docker_pull, logged in H.
    destruct (docker_pull engine c (engine_state s)) as [[e|[]] w].
    + injection H as <- <-. simpl. repeat split; try reflexivity.
      exists [Pull c (inl e)]. split; [reflexivity | constructor].
    + apply IH in H. simpl in H.
      destruct H as (H1 & H2 & H3 & P & H4 & H5).
      repeat split; try assumption.
      exists (Pull c (inr tt) :: P). split.
      * rewrite H4, <- app_assoc. reflexivity.
      * constructor. exact H5.
Qed.

Lemma run_loop_spec (venv : VirtualEnv) (cfgs : list ContainerConfig) :
  forall (s s' : State W) (r : result unit) (m : Dict.t RunningContainer),
    Dict.get (envname venv) (ENV_CONTAINERS s) = Some m ->
    run_loop engine venv cfgs s = (r, s') ->
    CONTAINER_CONFIGS s' = CONTAINER_CONFIGS s /\
    setenv s' = setenv s /\
    (forall e, e <> envname venv ->
       Dict.get e (ENV_CONTAINERS s') = Dict.get e (ENV_CONTAINERS s)) /\
    exists R m',
      engine_calls s' = engine_calls s ++ R /\
      Dict.get (envname venv) (ENV_CONTAINERS s') = Some m' /\
      run_log m cfgs R r m'.
Proof.
  unfold run_loop.
  induction cfgs as [|c cs IH]; intros s s' r m Hm H; simpl in H.
  - injection H as <- <-. repeat split; try reflexivity.
    exists [], m. rewrite app_nil_r. repeat split; [exact Hm | constructor].
  - unfold bind at 1 in H. unfold bind at 1 in H.
    unfold env_containers_of at 1 in H. rewrite Hm in H.
    unfold bind at 1 in H. unfold call_docker_run, logged in H.
    destruct (docker_run engine c m (engine_state s)) as [[e|k] w].
    + injection H as <- <-. simpl. repeat split; try reflexivity.
      exists [Run c m (inl e)], m. repeat split; [exact Hm | constructor].
    + unfold register, bind at 1, env_containers_of at 1 in H.
      simpl in H. rewrite Hm in H.
      eapply IH in H; [ | simpl; apply dict_get_set_same ].
      simpl in H. destruct H as (H1 & H2 & H3 & R & m' & H4 & H5 & H6).
      repeat split; try assumption.
      * intros e0 Hne. rewrite (H3 e0 Hne).
        apply dict_get_set_other. exact Hne.
      * exists (Run c m (inr k) :: R), m'. repeat split.
        -- rewrite H4, <- app_assoc. reflexivity.
        -- exact H5.
        -- constructor. exact H6.
Qed.

Lemma health_check_loop_spec (its : list (string * RunningContainer)) :
  forall (s s' : State W) (r : result unit),
    health_check_loop engine its s = (r, s') ->
    CONTAINER_CONFIGS s' = CONTAINER_CONFIGS s /\
    ENV_CONTAINERS s' = ENV_CONTAINERS s /\
    setenv s' = setenv s /\
    exists H, engine_calls s' = engine_calls s ++ H /\
              health_log (CONTAINER_CONFIGS s) its H r.
Proof.
  induction its as [|[n k] rest IH]; intros s s' r H; simpl in H.
  - injection H as <- <-. repeat split; try reflexivity.
    exists []. rewrite app_nil_r. split; [reflexivity | constructor].
  - unfold bind at 1, config_of at 1 in H.
    destruct (Dict.get n (CONTAINER_CONFIGS s)) as [c|] eqn:Hc.
    + unfold bind at 1, try_, call_docker_health_check, logged in H.
      destruct (docker_health_check engine c k (engine_state s))
        as [[e|[]] w].
      * destruct (is_HealthCheckFailed e) eqn:He.
        -- destruct e; try discriminate He.
           injection H as <- <-. simpl. repeat split; try reflexivity.
           eexists. split; [reflexivity | ].
           apply health_log_break. exact Hc.
        -- injection H as <- <-. simpl. repeat split; try reflexivity.
           eexists. split; [reflexivity | ].
           apply health_log_raise; assumption.
      * apply IH in H. simpl in H.
        destruct H as (H1 & H2 & H3 & L & H4 & H5).
        repeat split; try assumption.
        exists (HealthCheck c k (inr tt) :: L). split.
        -- rewrite H4, <- app_assoc. reflexivity.
        -- apply health_log_ok; assumption.
    + injection H as <- <-. repeat split; try reflexivity.
      exists []. rewrite app_nil_r. split; [reflexivity | ].
      apply health_log_missing. exact Hc.
Qed.

Lemma inject_loop_spec (venv : VirtualEnv)
    (its : list (string * RunningContainer)) :
  forall (s s' : State W) (r : result unit),
    inject_loop engine venv its s = (r, s') ->
    CONTAINER_CONFIGS s' = CONTAINER_CONFIGS s /\
    ENV_CONTAINERS s' = ENV_CONTAINERS s /\
    engine_state s' = engine_state s /\
    engine_calls s' = engine_calls s /\
    (forall e, e <> envname venv -> setenv s' e = setenv s e) /\
    inject_all (CONTAINER_CONFIGS s) (get_env_vars engine) its
      (setenv s (envname venv)) = (r, setenv s' (envname venv)).
Proof.
  unfold inject_loop.
  induction its as [|[n k] rest IH]; intros s s' r H; simpl in H.
  - injection H as <- <-. repeat split; reflexivity.
  - unfold bind at 1, bind at 1, config_of at 1 in H. simpl.
    destruct (Dict.get n (CONTAINER_CONFIGS s)) as [c|] eqn:Hc.
    + unfold inject at 1 in H. apply IH in H. simpl in H.
      destruct H as (H1 & H2 & H3 & H4 & H5 & H6).
      repeat split; try assumption.
      * intros e Hne. rewrite (H5 e Hne).
        rewrite (string_eqb_false Hne). reflexivity.
      * rewrite String.eqb_refl in H6. exact H6.
    + injection H as <- <-. repeat split; reflexivity.
Qed.

End Loops.

(** ** [tox_runtest_pre] as a whole *)

Section Setup.

Context {W : Type} (engine : Engine W).

(** Every run of the hook ends in one of the five ways of [pre_run], and
    touches nothing of another environment. *)
Lemma tox_runtest_pre_spec (venv : VirtualEnv) (s s' : State W)
    (r : result unit) :
  tox_runtest_pre engine venv s = (r, s') ->
  CONTAINER_CONFIGS s' = CONTAINER_CONFIGS s /\
  (forall e, e <> envname venv -> setenv s' e = setenv s e) /\
  (forall e, e <> envname venv ->
     Dict.get e (ENV_CONTAINERS s') = Dict.get e (ENV_CONTAINERS s)) /\
  exists new touched,
    engine_calls s' = engine_calls s ++ new /\
    pre_run (CONTAINER_CONFIGS s) (get_env_vars engine) (docker venv)
      (env_map s venv) (setenv s (envname venv))
      r new touched (setenv s' (envname venv)) /\
    match touched with
    | None => ENV_CONTAINERS s' = ENV_CONTAINERS s
    | Some m => Dict.get (envname venv) (ENV_CONTAINERS s') = Some m
    end.
Proof.
  unfold tox_runtest_pre. intro H.
  unfold bind at 1, gets at 1, bind at 1, lift at 1 in H.
  destruct (resolve_container_set (CONTAINER_CONFIGS s) (docker venv))
    as [e|cfgs] eqn:Hres.
  { injection H as <- <-. repeat split; try reflexivity.
    exists [], None. rewrite app_nil_r. repeat split.
    apply pre_unresolved. exact Hres. }
  unfold bind at 1 in H.
  destruct (pull_loop engine cfgs s) as [rp s1] eqn:Hp.
  apply pull_loop_spec in Hp. destruct Hp as (Hc1 & He1 & Hs1 & P & Hl1 & HP).
  destruct rp as [e|[]].
  { injection H as <- <-. rewrite Hs1. repeat split; try assumption.
    - rewrite He1. reflexivity.
    - exists P, None. repeat split; try assumption.
      apply pre_pull_raised with (cfgs := cfgs); assumption. }
  unfold bind at 1, setdefault_env_containers at 1 in H.
  unfold bind at 1 in H.
  match type of H with
  | context [run_loop engine venv cfgs ?s2] =>
      destruct (run_loop engine venv cfgs s2) as [rr s3] eqn:Hr
  end.
  eapply run_loop_spec in Hr; [ | simpl; apply dict_get_setdefault ].
  simpl in Hr. rewrite He1 in Hr. fold (env_map s venv) in Hr.
  destruct Hr as (Hc3 & Hs3 & Ho3 & R & m & Hl3 & Hm3 & HR).
  assert (Hother : forall e, e <> envname venv ->
            Dict.get e (ENV_CONTAINERS s3) = Dict.get e (ENV_CONTAINERS s)).
  { intros e Hne. rewrite (Ho3 e Hne).
    apply dict_get_setdefault_other. exact Hne. }
  assert (Hlog3 : engine_calls s3 = engine_calls s ++ P ++ R).
  { rewrite Hl3, Hl1, <- app_assoc. reflexivity. }
  destruct rr as [e|[]].
  { injection H as <- <-. rewrite Hs3, Hs1, Hc3, Hc1.
    repeat split; try assumption.
    exists (P ++ R), (Some m). repeat split; try assumption.
    apply pre_run_raised with (cfgs := cfgs); assumption. }
  unfold bind at 1, env_containers_of at 1 in H. rewrite Hm3 in H.
  unfold bind at 1 in H.
  destruct (health_check_loop engine (Dict.items m) s3) as [rh s4] eqn:Hh.
  apply health_check_loop_spec in Hh.
  destruct Hh as (Hc4 & He4 & Hs4 & L & Hl4 & HL).
  rewrite Hc3, Hc1 in HL.
  assert (Hlog4 : engine_calls s4 = engine_calls s ++ P ++ R ++ L).
  { rewrite Hl4, Hlog3, <- !app_assoc. reflexivity. }
  destruct rh as [e|[]].
  { injection H as <- <-. rewrite Hs4, Hs3, Hs1, Hc4, Hc3, Hc1, He4.
    repeat split; try assumption.
    exists (P ++ R ++ L), (Some m). repeat split; try assumption.
    apply pre_health_raised with (cfgs := cfgs); assumption. }
  unfold bind at 1, env_containers_of at 1 in H. rewrite He4, Hm3 in H.
  apply inject_loop_spec in H.
  destruct H as (Hc5 & He5 & _ & Hl5 & Ho5 & Hinj).
  rewrite Hc4, Hc3, Hc1, Hs4, Hs3, Hs1 in Hinj.
  rewrite Hc5, Hc4, Hc3, Hc1, He5, He4, Hl5.
  repeat split; try assumption.
  - intros e Hne. rewrite (Ho5 e Hne), Hs4, Hs3, Hs1. reflexivity.
  - exists (P ++ R ++ L), (Some m). repeat split; try assumption.
    apply pre_injected with (cfgs := cfgs); assumption.
Qed.

End Setup.

(** ** What the logs of the loops look like *)

Lemma pull_log_all_pulls cfgs P r :
  pull_log cfgs P r -> Forall (fun ev => is_pull ev = true) P.
Proof.
  induction 1; constructor; try reflexivity; try assumption. constructor.
Qed.

Lemma pull_log_returned cfgs P :
  pull_log cfgs P (inr tt) -> P = map (fun c => Pull c (inr tt)) cfgs.
Proof.
  intro H. remember (inr tt : result unit) as r eqn:Hr.
  induction H; try discriminate Hr; try subst r; simpl.
  - reflexivity.
  - rewrite <- (IHpull_log eq_refl). reflexivity.
Qed.

Lemma pull_log_raised cfgs P e :
  pull_log cfgs P (inl e) ->
  exists done c rest,
    cfgs = done ++ c :: rest /\
    P = map (fun c => Pull c (inr tt)) done ++ [Pull c (inl e)].
Proof.
  intro H. remember (inl e : result unit) as r eqn:Hr.
  induction H.
  - discriminate Hr.
  - destruct (IHpull_log Hr) as (done & c' & rest & -> & ->).
    exists (c :: done), c', rest. split; reflexivity.
  - injection Hr as ->. exists [], c, cs. split; reflexivity.
Qed.

Lemma run_log_all_runs m cfgs R r m' :
  run_log m cfgs R r m' -> Forall (fun ev => is_run ev = true) R.
Proof.
  induction 1; constructor; try reflexivity; try assumption. constructor.
Qed.

(** Start calls are issued in the order of the resolved list. *)
Lemma run_log_in_order m cfgs R r m' :
  run_log m cfgs R r m' ->
  run_configs_of R = firstn (length (run_configs_of R)) cfgs.
Proof.
  induction 1; simpl.
  - reflexivity.
  - f_equal. exact IHrun_log.
  - reflexivity.
Qed.

(** When every start returned, every spec of the list was started. *)
Lemma run_log_returned m cfgs R m' :
  run_log m cfgs R (inr tt) m' -> map fst (started_of R) = cfgs.
Proof.
  intro H. remember (inr tt : result unit) as r eqn:Hr.
  induction H; simpl.
  - reflexivity.
  - f_equal. exact (IHrun_log Hr).
  - discriminate Hr.
Qed.

(** The map the start loop leaves holds the name of every container
    started. *)
Lemma run_log_registered m cfgs R r m' :
  run_log m cfgs R r m' ->
  (forall x, Dict.mem x m = true -> Dict.mem x m' = true) /\
  (forall c k, In (c, k) (started_of R) -> Dict.mem (name c) m' = true).
Proof.
  induction 1 as [m|m c k cs log r m' H [IH1 IH2]|m c cs e]; simpl.
  - split; [tauto | intros c k []].
  - split.
    + intros x Hx. apply IH1. apply dict_mem_set_mono. exact Hx.
    + intros c' k' [Heq|Hin].
      * injection Heq as <- <-. apply IH1. apply dict_mem_set_same.
      * exact (IH2 c' k' Hin).
  - split; [tauto | intros c' k' []].
Qed.

(** From a map [m], starting specs with pairwise distinct names that are
    not keys of [m] appends the new entries in start order. *)
Lemma run_log_appends m cfgs R r m' :
  run_log m cfgs R r m' ->
  NoDup (map name cfgs) ->
  (forall c, In c cfgs -> Dict.get (name c) m = None) ->
  m' = m ++ map (fun ck => (name (fst ck), snd ck)) (started_of R).
Proof.
  induction 1 as [m|m c k cs log r m' H IH|m c cs e]; simpl;
    intros Hnd Hfresh.
  - rewrite app_nil_r. reflexivity.
  - inversion Hnd as [|x xs Hnotin Hnd']; subst.
    rewrite IH.
    + rewrite dict_set_fresh by (apply Hfresh; left; reflexivity).
      rewrite <- app_assoc. reflexivity.
    + exact Hnd'.
    + intros c' Hin. rewrite dict_get_set_other.
      * apply Hfresh. right. exact Hin.
      * intro Heq. apply Hnotin. rewrite <- Heq. apply in_map. exact Hin.
  - rewrite app_nil_r. reflexivity.
Qed.

Lemma health_log_all_checks CONFIGS its H r :
  health_log CONFIGS its H r ->
  Forall (fun ev => is_health_check ev = true) H.
Proof.
  induction 1; repeat constructor; assumption.
Qed.

(** A health check that raised is the last entry of the loop's log. *)
Lemma health_log_raise_is_last CONFIGS its H r :
  health_log CONFIGS its H r ->
  forall l1 c k e l2, H = l1 ++ HealthCheck c k (inl e) :: l2 -> l2 = [].
Proof.
  induction 1; intros l1 c' k' e' l2 Heq.
  - destruct l1; discriminate Heq.
  - destruct l1 as [|ev l1]; simpl in Heq.
    + discriminate Heq.
    + injection Heq as _ Heq. exact (IHhealth_log _ _ _ _ _ Heq).
  - destruct l1 as [|ev l1]; simpl in Heq.
    + injection Heq as _ _ _ <-. reflexivity.
    + injection Heq as _ Heq. destruct l1; discriminate Heq.
  - destruct l1 as [|ev l1]; simpl in Heq.
    + injection Heq as _ _ _ <-. reflexivity.
    + injection Heq as _ Heq. destruct l1; discriminate Heq.
  - destruct l1; discriminate Heq.
Qed.

(** When the loop itself raised, no check of its log ended in
    [HealthCheckFailed]. *)
Lemma health_log_raised_not_failed CONFIGS its H e :
  health_log CONFIGS its H (inl e) ->
  forall c k text, ~ In (HealthCheck c k (inl (HealthCheckFailed text))) H.
Proof.
  intro HL. remember (inl e : result unit) as r eqn:Hr.
  induction HL; intros c' k' txt Hin.
  - destruct Hin.
  - destruct Hin as [Heq|Hin]; [discriminate Heq | ].
    exact (IHHL Hr c' k' txt Hin).
  - discriminate Hr.
  - injection Hr as ->. destruct Hin as [Heq|[]].
    injection Heq as _ _ ->. discriminate.
  - destruct Hin.
Qed.

(** Every check of the log is the check of an entry of the map, with the
    spec registered under the entry's key. *)
Lemma health_log_entries CONFIGS its H r :
  health_log CONFIGS its H r ->
  forall c k r', In (HealthCheck c k r') H ->
    exists n, In (n, k) its /\ Dict.get n CONFIGS = Some c.
Proof.
  induction 1; intros c' k' r' Hin.
  - destruct Hin.
  - destruct Hin as [Heq|Hin].
    + injection Heq as <- <- _. exists n. split; [left; reflexivity | assumption].
    + destruct (IHhealth_log c' k' r' Hin) as [n' [H1 H2]].
      exists n'. split; [right; exact H1 | exact H2].
  - destruct Hin as [Heq|[]]. injection Heq as <- <- _.
    exists n. split; [left; reflexivity | assumption].
  - destruct Hin as [Heq|[]]. injection Heq as <- <- _.
    exists n. split; [left; reflexivity | assumption].
  - destruct Hin.
Qed.

(** Health checks walk the map in its order: over a map that lists the
    started containers under the names of their specs, the containers
    checked are the first of the containers started. *)
Lemma health_log_in_start_order CONFIGS
    (st : list (ContainerConfig * RunningContainer)) :
  (forall c k, In (c, k) st -> Dict.get (name c) CONFIGS = Some c) ->
  forall H r,
    health_log CONFIGS (map (fun ck => (name (fst ck), snd ck)) st) H r ->
    checked_of H = firstn (length (checked_of H)) st.
Proof.
  induction st as [|[c k] st IH]; intros Hreg H r HL; simpl in HL.
  - inversion HL. reflexivity.
  - assert (Hc : Dict.get (name c) CONFIGS = Some c)
      by (apply (Hreg c k); left; reflexivity).
    assert (Hreg' : forall c' k', In (c', k') st ->
                      Dict.get (name c') CONFIGS = Some c')
      by (intros c' k' Hin; apply (Hreg c' k'); right; exact Hin).
    inversion HL as [|n k0 c0 rest log r0 Hget HL'|n k0 c0 rest text Hget
                     |n k0 c0 rest e Hget He|n k0 rest Hget]; subst;
      try (rewrite Hc in Hget; injection Hget as <-); simpl.
    + f_equal. exact (IH Hreg' _ _ HL').
    + reflexivity.
    + reflexivity.
    + reflexivity.
Qed.

(** ** Resolution of the container list *)

Lemma resolve_loop_returned CONFIGS names :
  forall seen acc cfgs,
    resolve_loop CONFIGS names seen acc = inr cfgs ->
    exists l,
      cfgs = acc ++ l /\
      map Some l = map (fun n => Dict.get n CONFIGS) names /\
      NoDup names /\
      (forall n, In n names -> ~ In n seen).
Proof.
  induction names as [|n rest IH]; intros seen acc cfgs H; simpl in H.
  - injection H as <-. exists []. rewrite app_nil_r.
    repeat split; [constructor | intros n []].
  - destruct (Dict.get n CONFIGS) as [c|] eqn:Hc; [ | discriminate H].
    destruct (existsb (String.eqb n) seen) eqn:Hseen; [discriminate H | ].
    apply existsb_eqb_not_In in Hseen.
    destruct (IH _ _ _ H) as (l & -> & Hmap & Hnd & Hdisj).
    exists (c :: l). rewrite <- app_assoc. simpl. repeat split.
    + rewrite Hc, Hmap. reflexivity.
    + constructor; [ | exact Hnd].
      intro Hin. apply (Hdisj n Hin). left. reflexivity.
    + intros n' [<-|Hin]; [exact Hseen | ].
      intro Hs. apply (Hdisj n' Hin). right. exact Hs.
Qed.

Lemma resolve_loop_raised CONFIGS names :
  forall seen acc e,
    resolve_loop CONFIGS names seen acc = inl e ->
    (exists m, e = ValueError m) /\
    ((exists n, In n names /\ Dict.get n CONFIGS = None) \/
     ~ NoDup names \/
     (exists n, In n names /\ In n seen)).
Proof.
  induction names as [|n rest IH]; intros seen acc e H; simpl in H.
  - discriminate H.
  - destruct (Dict.get n CONFIGS) as [c|] eqn:Hc.
    + destruct (existsb (String.eqb n) seen) eqn:Hseen.
      * injection H as <-. split; [eexists; reflexivity | ].
        right. right. exists n. split; [left; reflexivity | ].
        apply existsb_eqb_In. exact Hseen.
      * destruct (IH _ _ _ H) as [Hm [[n' [Hin Hn']]|[Hnd|[n' [Hin Hs]]]]];
          (split; [exact Hm | ]).
        -- left. exists n'. split; [right; exact Hin | exact Hn'].
        -- right. left. intro Hnd'. apply Hnd.
           inversion Hnd'. assumption.
        -- destruct Hs as [<-|Hs].
           ++ right. left. intro Hnd'. inversion Hnd'. contradiction.
           ++ right. right. exists n'. split; [right; exact Hin | exact Hs].
    + injection H as <-. split; [eexists; reflexivity | ].
      left. exists n. split; [left; reflexivity | exact Hc].
Qed.

(** Resolution raises exactly on a list that names an absent section or
    repeats a name, and what it raises is a [ValueError]. *)
Lemma resolve_raises_iff CONFIGS names :
  (exists m, resolve_container_set CONFIGS names = inl (ValueError m)) <->
  ((exists n, In n names /\ Dict.get n CONFIGS = None) \/ ~ NoDup names).
Proof.
  unfold resolve_container_set. split.
  - intros [m H]. apply resolve_loop_raised in H.
    destruct H as [_ [H|[H|[n [_ []]]]]]; [left | right]; exact H.
  - intro Hbad.
    destruct (resolve_loop CONFIGS names [] []) as [e|cfgs] eqn:H.
    + destruct (resolve_loop_raised _ _ _ _ H) as [[m ->] _].
      exists m. reflexivity.
    + exfalso. apply resolve_loop_returned in H.
      destruct H as (l & _ & Hmap & Hnd & _).
      destruct Hbad as [[n [Hin Hn]]|Hbad]; [ | exact (Hbad Hnd)].
      assert (Hi : In (Dict.get n CONFIGS)
                      (map (fun n => Dict.get n CONFIGS) names))
        by (apply in_map with (f := fun n => Dict.get n CONFIGS); exact Hin).
      rewrite <- Hmap, Hn in Hi. apply in_map_iff in Hi.
      destruct Hi as [c [Hc _]]. discriminate Hc.
Qed.

Lemma resolve_returned CONFIGS names cfgs :
  resolve_container_set CONFIGS names = inr cfgs ->
  map Some cfgs = map (fun n => Dict.get n CONFIGS) names /\ NoDup names.
Proof.
  unfold resolve_container_set. intro H.
  apply resolve_loop_returned in H. destruct H as (l & -> & Hmap & Hnd & _).
  split; assumption.
Qed.

(** Over a registry that stores every spec under its own name, the resolved
    specs carry the declared names and are found under them. *)
Lemma resolved_names CONFIGS :
  registry_wf CONFIGS ->
  forall names cfgs,
    map Some cfgs = map (fun n => Dict.get n CONFIGS) names ->
    map name cfgs = names /\
    (forall c, In c cfgs -> Dict.get (name c) CONFIGS = Some c).
Proof.
  intros Hwf names.
  induction names as [|n rest IH]; intros [|c cs] H; simpl in H;
    try discriminate H.
  - split; [reflexivity | intros c []].
  - injection H as Hc Hrest. destruct (IH cs Hrest) as [IH1 IH2].
    symmetry in Hc. pose proof (Hwf n c Hc) as Hn. simpl. split.
    + rewrite Hn, IH1. reflexivity.
    + intros c' [<-|Hin]; [rewrite Hn; exact Hc | exact (IH2 c' Hin)].
Qed.

(** C7. Resolving the container set of an environment fails with a
    configuration error ([ValueError]) if and only if the declared list
    names a container that is absent from the registry or repeats a name;
    otherwise it succeeds and yields the registered specs of the declared
    names, in the declared order. *)
Theorem resolve_container_set_fails_iff
    (CONFIGS : Dict.t ContainerConfig) (names : list string) :
  ((exists m, resolve_container_set CONFIGS names = inl (ValueError m)) <->
   ((exists n, In n names /\ Dict.get n CONFIGS = None) \/ ~ NoDup names)) /\
  (~ ((exists n, In n names /\ Dict.get n CONFIGS = None) \/ ~ NoDup names) ->
   exists cfgs,
     resolve_container_set CONFIGS names = inr cfgs /\
     map Some cfgs = map (fun n => Dict.get n CONFIGS) names).
Proof.
  split; [apply resolve_raises_iff | ].
  intro Hgood.
  destruct (resolve_container_set CONFIGS names) as [e|cfgs] eqn:H.
  - exfalso. apply Hgood. apply resolve_raises_iff.
    unfold resolve_container_set in H.
    destruct (resolve_loop_raised _ _ _ _ H) as [[m ->] _].
    exists m. exact H.
  - exists cfgs. split; [reflexivity | ].
    apply (resolve_returned _ _ H).
Qed.

(** C5. When the declared list of an environment names a container absent
    from the registry or repeats a name, the setup hook raises the
    configuration error and leaves the whole state as it was: no engine
    call is logged (no pull, run, health check or stop) and nothing is
    registered in [ENV_CONTAINERS]. *)
Theorem tox_runtest_pre_rejects_before_engine (W : Type) (engine : Engine W)
    (venv : VirtualEnv) (s : State W) :
  ((exists n, In n (docker venv) /\
              Dict.get n (CONTAINER_CONFIGS s) = None) \/
   ~ NoDup (docker venv)) ->
  exists m, tox_runtest_pre engine venv s = (inl (ValueError m), s).
Proof.
  intro Hbad. apply resolve_raises_iff in Hbad. destruct Hbad as [m Hm].
  exists m. unfold tox_runtest_pre, bind, gets, lift. rewrite Hm. reflexivity.
Qed.

(** An environment that declares [docker = ghost], for which there is no
    section: the hook raises and the state is untouched. *)
Lemma tox_runtest_pre_rejects_before_engine_witness :
  exists m,
    tox_runtest_pre (example_engine "" "")
      {| envname := "py"; docker := ["ghost"] |} (example_state no_variables)
    = (inl (ValueError m), example_state no_variables).
Proof.
  apply (@tox_runtest_pre_rejects_before_engine nat (example_engine "" "")
           {| envname := "py"; docker := ["ghost"] |}
           (example_state no_variables)).
  left. exists "ghost". split; [left; reflexivity | reflexivity].
Defined.

(** ** Reading a run of [tox_runtest_pre] off its log *)

Lemma tox_runtest_pre_log (W : Type) (engine : Engine W) (venv : VirtualEnv)
    (s s' : State W) (r : result unit) (new : list event) :
  tox_runtest_pre engine venv s = (r, s') ->
  engine_calls s' = engine_calls s ++ new ->
  exists touched,
    pre_run (CONTAINER_CONFIGS s) (get_env_vars engine) (docker venv)
      (env_map s venv) (setenv s (envname venv))
      r new touched (setenv s' (envname venv)) /\
    match touched with
    | None => ENV_CONTAINERS s' = ENV_CONTAINERS s
    | Some m => Dict.get (envname venv) (ENV_CONTAINERS s') = Some m
    end.
Proof.
  intros H Hlog. apply tox_runtest_pre_spec in H.
  destruct H as (_ & _ & _ & new' & touched & Hlog' & Hrun & Ht).
  rewrite Hlog' in Hlog. apply app_inv_head in Hlog. subst new'.
  exists touched. split; assumption.
Qed.

Lemma not_pull_in_pulls (P : list event) (ev : event) :
  Forall (fun ev => is_pull ev = true) P -> is_pull ev = false -> ~ In ev P.
Proof.
  intros HP Hev Hin. rewrite Forall_forall in HP.
  rewrite (HP ev Hin) in Hev. discriminate Hev.
Qed.

Lemma pulls_returned_no_raise cfgs c e :
  ~ In (Pull c (inl e)) (map (fun c => Pull c (inr tt)) cfgs).
Proof.
  intro Hin. apply in_map_iff in Hin. destruct Hin as [c' [Heq _]].
  discriminate Heq.
Qed.

Lemma in_runs_is_run (R : list event) (ev : event) :
  Forall (fun ev => is_run ev = true) R -> In ev R -> is_run ev = true.
Proof. intros HR Hin. rewrite Forall_forall in HR. exact (HR ev Hin). Qed.

Lemma in_checks_is_check (H : list event) (ev : event) :
  Forall (fun ev => is_health_check ev = true) H -> In ev H ->
  is_health_check ev = true.
Proof. intros HH Hin. rewrite Forall_forall in HH. exact (HH ev Hin). Qed.

(** A pull found in the log of a run whose pulls all returned is one of
    those pulls. *)
Lemma pull_of_later_phases cfgs P R H c rc :
  pull_log cfgs P (inr tt) ->
  Forall (fun ev => is_run ev = true) R ->
  Forall (fun ev => is_health_check ev = true) H ->
  In (Pull c rc) (P ++ R ++ H) -> rc = inr tt.
Proof.
  intros HP HR HH Hin. apply in_app_or in Hin. destruct Hin as [Hin|Hin].
  - rewrite (pull_log_returned HP) in Hin. apply in_map_iff in Hin.
    destruct Hin as [c' [Heq _]]. injection Heq as _ <-. reflexivity.
  - apply in_app_or in Hin. destruct Hin as [Hin|Hin].
    + apply (@in_runs_is_run R _ HR) in Hin. discriminate Hin.
    + apply (@in_checks_is_check H _ HH) in Hin. discriminate Hin.
Qed.

(** C9. In every run of the setup hook, a pull that raised ends the run
    with that exception, with nothing but pulls in the log (no start, health
    check or stop call) and with [ENV_CONTAINERS] as it was; and whenever a
    start call is issued, the image of every resolved spec has been pulled
    before it. *)
Theorem tox_runtest_pre_pulls_before_runs (W : Type) (engine : Engine W)
    (venv : VirtualEnv) (s s' : State W) (r : result unit)
    (new : list event) :
  tox_runtest_pre engine venv s = (r, s') ->
  engine_calls s' = engine_calls s ++ new ->
  (forall c e, In (Pull c (inl e)) new ->
     r = inl e /\
     ENV_CONTAINERS s' = ENV_CONTAINERS s /\
     (forall ev, In ev new -> is_pull ev = true)) /\
  (forall l1 c m rc l2, new = l1 ++ Run c m rc :: l2 ->
     exists cfgs,
       resolve_container_set (CONTAINER_CONFIGS s) (docker venv) = inr cfgs /\
       (forall c', In c' cfgs -> In (Pull c' (inr tt)) l1)).
Proof.
  intros Hpre Hlog.
  destruct (@tox_runtest_pre_log _ _ _ _ _ _ _ Hpre Hlog)
    as [touched [Hrun Ht]].
  split.
  - intros c e Hin.
    inversion Hrun as [e0 Hres|cfgs P e0 Hres HP|cfgs P R e0 m Hres HP HR
                      |cfgs P R m H e0 Hres HP HR HH
                      |cfgs P R m H r0 env Hres HP HR HH Hinj]; subst.
    + destruct Hin.
    + pose proof (pull_log_all_pulls HP) as Hall.
      destruct (pull_log_raised HP) as (done & c0 & rest & _ & ->).
      apply in_app_or in Hin. destruct Hin as [Hin|[Heq|[]]].
      * exfalso. exact (pulls_returned_no_raise _ _ _ Hin).
      * injection Heq as _ <-. repeat split; try assumption.
        rewrite Forall_forall in Hall. exact Hall.
    + exfalso. rewrite <- (app_nil_r R) in Hin.
      pose proof (@pull_of_later_phases _ _ _ _ _ _ HP (run_log_all_runs HR)
                    (Forall_nil _) Hin) as Hc.
      discriminate Hc.
    + exfalso.
      pose proof (@pull_of_later_phases _ _ _ _ _ _ HP (run_log_all_runs HR)
                    (health_log_all_checks HH) Hin) as Hc.
      discriminate Hc.
    + exfalso.
      pose proof (@pull_of_later_phases _ _ _ _ _ _ HP (run_log_all_runs HR)
                    (health_log_all_checks HH) Hin) as Hc.
      discriminate Hc.
  - inversion Hrun as [e0 Hres|cfgs P e0 Hres HP|cfgs P R e0 m' Hres HP HR
                      |cfgs P R m' H e0 Hres HP HR HH
                      |cfgs P R m' H r0 env Hres HP HR HH Hinj]; subst;
      intros l1 c m rc l2 Heq;
      assert (Hnp : ~ is_pull (Run c m rc) = true) by (simpl; discriminate).
    + destruct l1; discriminate Heq.
    + exfalso. apply Hnp.
      pose proof (pull_log_all_pulls HP) as Hall.
      rewrite Forall_forall in Hall. apply Hall. rewrite Heq.
      apply in_or_app. right. left. reflexivity.
    + exists cfgs. split; [exact Hres | ].
      destruct (@split_past _ (fun ev => is_pull ev = true) _ _ _ _ _
                  (eq_sym Heq) (pull_log_all_pulls HP) Hnp) as [l [-> _]].
      intros c' Hin. apply in_or_app. left.
      rewrite (pull_log_returned HP).
      apply in_map with (f := fun c => Pull c (inr tt)). exact Hin.
    + exists cfgs. split; [exact Hres | ].
      destruct (@split_past _ (fun ev => is_pull ev = true) _ _ _ _ _
                  (eq_sym Heq) (pull_log_all_pulls HP) Hnp) as [l [-> _]].
      intros c' Hin. apply in_or_app. left.
      rewrite (pull_log_returned HP).
      apply in_map with (f := fun c => Pull c (inr tt)). exact Hin.
    + exists cfgs. split; [exact Hres | ].
      destruct (@split_past _ (fun ev => is_pull ev = true) _ _ _ _ _
                  (eq_sym Heq) (pull_log_all_pulls HP) Hnp) as [l [-> _]].
      intros c' Hin. apply in_or_app. left.
      rewrite (pull_log_returned HP).
      apply in_map with (f := fun c => Pull c (inr tt)). exact Hin.
Qed.

(** ** The readings of a log, phase by phase *)

Lemma started_of_app (l1 l2 : list event) :
  started_of (l1 ++ l2) = started_of l1 ++ started_of l2.
Proof.
  induction l1 as [|ev l1 IH]; simpl; [reflexivity | ].
  destruct ev as [c r|c m [e|k]|c k r|l r]; simpl; rewrite IH; reflexivity.
Qed.

Lemma checked_of_app (l1 l2 : list event) :
  checked_of (l1 ++ l2) = checked_of l1 ++ checked_of l2.
Proof.
  induction l1 as [|ev l1 IH]; simpl; [reflexivity | ].
  destruct ev; simpl; rewrite IH; reflexivity.
Qed.


Lemma pulls_read (P : list event) :
  Forall (fun ev => is_pull ev = true) P ->
  started_of P = [] /\ checked_of P = [] /\ run_configs_of P = [].
Proof.
  induction 1 as [|ev P Hev _ IH]; simpl; [repeat split | ].
  destruct ev; try discriminate Hev. exact IH.
Qed.

Lemma runs_read (R : list event) :
  Forall (fun ev => is_run ev = true) R -> checked_of R = [].
Proof.
  induction 1 as [|ev R Hev _ IH]; simpl; [reflexivity | ].
  destruct ev; try discriminate Hev. exact IH.
Qed.

Lemma checks_read (H : list event) :
  Forall (fun ev => is_health_check ev = true) H ->
  started_of H = [] /\ run_configs_of H = [].
Proof.
  induction 1 as [|ev H Hev _ IH]; simpl; [repeat split | ].
  destruct ev; try discriminate Hev. exact IH.
Qed.

Lemma started_of_In (log : list event) c k :
  In (c, k) (started_of log) <-> exists m, In (Run c m (inr k)) log.
Proof.
  induction log as [|ev log IH]; simpl.
  - split; [intros [] | intros [m []]].
  - destruct ev as [c0 r|c0 m0 [e|k0]|c0 k0 r|l r]; simpl; rewrite ?IH;
      split;
      try (intros [m Hin]; exists m; right; exact Hin);
      try (intros [m [Heq|Hin]]; [discriminate Heq | exists m; exact Hin]).
    + intros [Heq|[m Hin]].
      * injection Heq as <- <-. exists m0. left. reflexivity.
      * exists m. right. exact Hin.
    + intros [m [Heq|Hin]].
      * injection Heq as <- _ <-. left. reflexivity.
      * right. exists m. exact Hin.
Qed.

(** In a map that lists containers under the pairwise distinct names of
    their specs, each is found under the name of its spec. *)
Lemma dict_get_started (st : list (ContainerConfig * RunningContainer)) :
  NoDup (map name (map fst st)) ->
  forall c k, In (c, k) st ->
    Dict.get (name c) (map (fun ck => (name (fst ck), snd ck)) st) = Some k.
Proof.
  induction st as [|[c0 k0] st IH]; simpl; intros Hnd c k Hin.
  - destruct Hin.
  - inversion Hnd as [|x xs Hnotin Hnd']; subst.
    destruct Hin as [Heq|Hin].
    + injection Heq as <- <-. rewrite String.eqb_refl. reflexivity.
    + destruct (String.eqb_spec (name c) (name c0)) as [Heq|Hne].
      * exfalso. apply Hnotin. rewrite <- Heq.
        apply in_map. apply in_map with (f := fst) in Hin. exact Hin.
      * exact (IH Hnd' c k Hin).
Qed.

(** ** Variable injection *)

Lemma update_if_not_present_preserves vars :
  forall env var val,
    Dict.get var env = Some val ->
    Dict.get var (update_if_not_present vars env) = Some val.
Proof.
  induction vars as [|[v w] rest IH]; simpl; intros env var val H.
  - exact H.
  - apply IH. unfold Dict.mem.
    destruct (Dict.get v env) eqn:Hv; [exact H | ].
    rewrite dict_get_set_other; [exact H | ].
    intro Heq. subst v. rewrite H in Hv. discriminate Hv.
Qed.

Lemma dict_mem_get (V : Type) (k : string) (d : Dict.t V) :
  Dict.mem k d = true <-> exists v, Dict.get k d = Some v.
Proof.
  unfold Dict.mem. destruct (Dict.get k d) as [v|].
  - split; [intros _; exists v; reflexivity | reflexivity].
  - split; [discriminate | intros [v Hv]; discriminate Hv].
Qed.

Lemma update_if_not_present_adds vars :
  forall env var val,
    In (var, val) vars ->
    Dict.mem var (update_if_not_present vars env) = true.
Proof.
  induction vars as [|[v w] rest IH]; simpl; intros env var val Hin.
  - destruct Hin.
  - destruct Hin as [Heq|Hin]; [ | exact (IH _ _ _ Hin)].
    injection Heq as -> ->.
    apply dict_mem_get.
    destruct (Dict.mem var env) eqn:Hm.
    + apply dict_mem_get in Hm. destruct Hm as [v Hv]. exists v.
      apply update_if_not_present_preserves. exact Hv.
    + exists val. apply update_if_not_present_preserves.
      apply dict_get_set_same.
Qed.

Lemma inject_all_preserves CONFIGS vars_of its :
  forall env r env' var val,
    inject_all CONFIGS vars_of its env = (r, env') ->
    Dict.get var env = Some val -> Dict.get var env' = Some val.
Proof.
  induction its as [|[n k] rest IH]; simpl; intros env r env' var val H Hv.
  - injection H as _ <-. exact Hv.
  - destruct (Dict.get n CONFIGS) as [c|].
    + apply (IH _ _ _ _ _ H).
      apply update_if_not_present_preserves. exact Hv.
    + injection H as _ <-. exact Hv.
Qed.

Lemma inject_all_adds CONFIGS vars_of its :
  forall env env' n k c var val,
    inject_all CONFIGS vars_of its env = (inr tt, env') ->
    In (n, k) its -> Dict.get n CONFIGS = Some c ->
    In (var, val) (Dict.items (vars_of c k)) ->
    Dict.mem var env' = true.
Proof.
  induction its as [|[n0 k0] rest IH]; simpl;
    intros env env' n k c var val H Hin Hc Hvar.
  - destruct Hin.
  - destruct (Dict.get n0 CONFIGS) as [c0|] eqn:Hc0; [ | discriminate H].
    destruct Hin as [Heq|Hin].
    + injection Heq as -> ->. rewrite Hc in Hc0. injection Hc0 as <-.
      pose proof (update_if_not_present_adds _ env _ _ Hvar) as Hm.
      apply dict_mem_get in Hm. destruct Hm as [v Hv].
      apply dict_mem_get. exists v.
      exact (inject_all_preserves _ _ _ _ _ H Hv).
    + exact (IH _ _ _ _ _ _ _ H Hin Hc Hvar).
Qed.

Lemma pre_run_preserves CONFIGS vars_of names m0 env0 r new touched env :
  pre_run CONFIGS vars_of names m0 env0 r new touched env ->
  forall var val,
    Dict.get var env0 = Some val -> Dict.get var env = Some val.
Proof.
  intros H var val Hv.
  inversion H as [| | | |cfgs P R m L r0 env1 Hres HP HR HH Hinj]; subst;
    try exact Hv.
  exact (inject_all_preserves _ _ _ _ _ Hinj Hv).
Qed.

(** C6. Whatever way the setup hook ends, a variable that was in the
    variable map of a test environment before the hook ran still has the
    same value afterwards: injection never overwrites. *)
Theorem tox_runtest_pre_keeps_setenv (W : Type) (engine : Engine W)
    (venv : VirtualEnv) (s s' : State W) (r : result unit)
    (e var val : string) :
  tox_runtest_pre engine venv s = (r, s') ->
  Dict.get var (setenv s e) = Some val ->
  Dict.get var (setenv s' e) = Some val.
Proof.
  intros Hpre Hv. apply tox_runtest_pre_spec in Hpre.
  destruct Hpre as (_ & Hother & _ & new & touched & _ & Hrun & _).
  destruct (String.eqb_spec e (envname venv)) as [->|Hne].
  - exact (pre_run_preserves Hrun _ Hv).
  - rewrite (Hother e Hne). exact Hv.
Qed.

(** ** Locating an entry of the log in its phase *)

Lemma locate_check (P R H l1 l2 : list event) (ev : event) :
  Forall (fun ev => is_pull ev = true) P ->
  Forall (fun ev => is_run ev = true) R ->
  is_health_check ev = true ->
  P ++ R ++ H = l1 ++ ev :: l2 ->
  exists l, H = l ++ ev :: l2 /\ l1 = P ++ R ++ l.
Proof.
  intros HP HR Hev Heq.
  assert (Hnp : ~ is_pull ev = true)
    by (destruct ev; simpl in *; discriminate).
  assert (Hnr : ~ is_run ev = true)
    by (destruct ev; simpl in *; discriminate).
  destruct (@split_past _ (fun ev => is_pull ev = true) _ _ _ _ _
              (eq_sym Heq) HP Hnp) as [l [-> Heq']].
  destruct (@split_past _ (fun ev => is_run ev = true) _ _ _ _ _
              (eq_sym Heq') HR Hnr) as [l' [-> Heq'']].
  exists l'. split; [exact Heq'' | reflexivity].
Qed.

Lemma locate_run (P R H l1 l2 : list event) (ev : event) :
  Forall (fun ev => is_pull ev = true) P ->
  Forall (fun ev => is_health_check ev = true) H ->
  is_run ev = true ->
  P ++ R ++ H = l1 ++ ev :: l2 ->
  exists l l', R = l ++ ev :: l' /\ l1 = P ++ l /\ l2 = l' ++ H.
Proof.
  intros HP HH Hev Heq.
  assert (Hnp : ~ is_pull ev = true)
    by (destruct ev; simpl in *; discriminate).
  assert (Hnh : ~ is_health_check ev = true)
    by (destruct ev; simpl in *; discriminate).
  destruct (@split_past _ (fun ev => is_pull ev = true) _ _ _ _ _
              (eq_sym Heq) HP Hnp) as [l [-> Heq']].
  destruct (@split_before _ (fun ev => is_health_check ev = true) _ _ _ _ _
              (eq_sym Heq') HH Hnh) as [l' [-> ->]].
  exists l, l'. repeat split.
Qed.

(** No health check is logged before the health-check loop. *)
Lemma no_check_before (P R : list event) (ev : event) :
  Forall (fun ev => is_pull ev = true) P ->
  Forall (fun ev => is_run ev = true) R ->
  is_health_check ev = true ->
  ~ In ev (P ++ R).
Proof.
  intros HP HR Hev Hin. apply in_app_or in Hin.
  rewrite Forall_forall in HP, HR.
  destruct Hin as [Hin|Hin]; [apply HP in Hin | apply HR in Hin];
    destruct ev; simpl in *; discriminate.
Qed.

(** C1. In a run of the setup hook in which a health check ends in
    [HealthCheckFailed], that check is the last engine call of the run: no
    health check is attempted afterwards.  The name of every container
    started stays registered in the running-container map of the
    environment.  Over a registry that stores every spec under its own
    name, and for an environment with no running container before the run,
    the containers whose check was attempted are the first of the
    containers started, in start order (so none after the failing one is
    checked), and every container started is still registered under the
    name of its spec. *)
Theorem tox_runtest_pre_fail_fast (W : Type) (engine : Engine W)
    (venv : VirtualEnv) (s s' : State W) (r : result unit)
    (new l1 l2 : list event) (c : ContainerConfig) (k : RunningContainer)
    (text : string) :
  tox_runtest_pre engine venv s = (r, s') ->
  engine_calls s' = engine_calls s ++ new ->
  new = l1 ++ HealthCheck c k (inl (HealthCheckFailed text)) :: l2 ->
  l2 = [] /\
  (forall c' k', In (c', k') (started_of new) ->
     Dict.mem (name c') (env_map s' venv) = true) /\
  (registry_wf (CONTAINER_CONFIGS s) -> env_map s venv = [] ->
   checked_of new = firstn (length (checked_of new)) (started_of new) /\
   (forall c' k', In (c', k') (started_of new) ->
      Dict.get (name c') (env_map s' venv) = Some k')).
Proof.
  intros Hpre Hlog.
  destruct (@tox_runtest_pre_log _ _ _ _ _ _ _ Hpre Hlog)
    as [touched [Hrun Ht]].
  inversion Hrun as [e0 Hres|cfgs P e0 Hres HP|cfgs P R e0 m Hres HP HR
                    |cfgs P R m H e0 Hres HP HR HH
                    |cfgs P R m H r0 env Hres HP HR HH Hinj]; subst;
    intro Hnew;
    assert (Hin : In (HealthCheck c k (inl (HealthCheckFailed text)))
                    (l1 ++ HealthCheck c k (inl (HealthCheckFailed text))
                        :: l2))
      by (apply in_or_app; right; left; reflexivity);
    rewrite <- Hnew in Hin.
  - destruct Hin.
  - exfalso.
    apply (@no_check_before _ []
             (HealthCheck c k (inl (HealthCheckFailed text)))
             (pull_log_all_pulls HP) (Forall_nil _) eq_refl).
    rewrite app_nil_r. exact Hin.
  - exfalso.
    exact (@no_check_before _ _
             (HealthCheck c k (inl (HealthCheckFailed text)))
             (pull_log_all_pulls HP)
             (run_log_all_runs HR) eq_refl Hin).
  - exfalso. rewrite app_assoc in Hin.
    apply in_app_or in Hin. destruct Hin as [Hin|Hin].
    + exact (@no_check_before _ _
             (HealthCheck c k (inl (HealthCheckFailed text)))
             (pull_log_all_pulls HP)
               (run_log_all_runs HR) eq_refl Hin).
    + exact (health_log_raised_not_failed HH _ _ _ Hin).
  - clear Hin.
    pose proof (pull_log_all_pulls HP) as HallP.
    pose proof (run_log_all_runs HR) as HallR.
    pose proof (health_log_all_checks HH) as HallH.
    destruct (@locate_check _ _ _ _ _
                (HealthCheck c k (inl (HealthCheckFailed text)))
                HallP HallR eq_refl Hnew)
      as [l [HH' _]].
    pose proof (@health_log_raise_is_last _ _ _ _ HH _ _ _ _ _ HH') as Hl2.
    assert (Hst : started_of (P ++ R ++ H) = started_of R).
    { rewrite !started_of_app.
      destruct (pulls_read HallP) as (-> & _ & _).
      destruct (checks_read HallH) as (-> & _).
      rewrite app_nil_r. reflexivity. }
    assert (Hch : checked_of (P ++ R ++ H) = checked_of H).
    { rewrite !checked_of_app.
      destruct (pulls_read HallP) as (_ & -> & _).
      rewrite (runs_read HallR). reflexivity. }
    assert (Hmap : env_map s' venv = m)
      by (unfold env_map; rewrite Ht; reflexivity).
    rewrite Hst, Hch, Hmap.
    split; [exact Hl2 | ]. split.
    + intros c' k' Hin. exact (proj2 (run_log_registered HR) c' k' Hin).
    + intros Hwf Hfresh. rewrite Hfresh in HR.
      destruct (resolve_returned _ _ Hres) as [Hsome Hnd].
      destruct (resolved_names Hwf _ _ Hsome) as [Hnames Hfound].
      assert (Hm : m = map (fun ck => (name (fst ck), snd ck)) (started_of R)).
      { apply (run_log_appends HR).
        - rewrite Hnames. exact Hnd.
        - intros c' _. reflexivity. }
      pose proof (run_log_returned HR) as Hfst.
      split.
      * apply health_log_in_start_order
          with (CONFIGS := CONTAINER_CONFIGS s) (r := inr tt).
        -- intros c' k' Hin. apply Hfound. rewrite <- Hfst.
           apply in_map with (f := fst) in Hin. exact Hin.
        -- rewrite <- Hm. exact HH.
      * intros c' k' Hin. rewrite Hm. apply dict_get_started.
        -- rewrite Hfst, Hnames. exact Hnd.
        -- exact Hin.
Qed.

(** C3 (amended). Injection is not restricted to healthy containers: when
    the setup hook returns, every variable exported by a container of the
    environment's running-container map is in the variable map of the
    environment, whatever the outcome of its health check and whether or
    not the check was attempted; in particular the variables of a container
    whose health check raised are there. *)
Theorem tox_runtest_pre_injects_all (W : Type) (engine : Engine W)
    (venv : VirtualEnv) (s s' : State W) (new : list event) :
  tox_runtest_pre engine venv s = (inr tt, s') ->
  engine_calls s' = engine_calls s ++ new ->
  (forall n k c var val,
     In (n, k) (Dict.items (env_map s' venv)) ->
     Dict.get n (CONTAINER_CONFIGS s) = Some c ->
     In (var, val) (Dict.items (get_env_vars engine c k)) ->
     Dict.mem var (setenv s' (envname venv)) = true) /\
  (forall c k e var val,
     In (HealthCheck c k (inl e)) new ->
     In (var, val) (Dict.items (get_env_vars engine c k)) ->
     Dict.mem var (setenv s' (envname venv)) = true).
Proof.
  intros Hpre Hlog.
  destruct (@tox_runtest_pre_log _ _ _ _ _ _ _ Hpre Hlog)
    as [touched [Hrun Ht]].
  inversion Hrun as [| | | |cfgs P R m H r0 env Hres HP HR HH Hinj]; subst.
  assert (Hmap : env_map s' venv = m)
    by (unfold env_map; rewrite Ht; reflexivity).
  rewrite Hmap.
  assert (Hall : forall n k c var val,
            In (n, k) (Dict.items m) ->
            Dict.get n (CONTAINER_CONFIGS s) = Some c ->
            In (var, val) (Dict.items (get_env_vars engine c k)) ->
            Dict.mem var (setenv s' (envname venv)) = true).
  { intros n k c var val Hin Hc Hvar.
    exact (@inject_all_adds _ _ _ _ _ _ _ _ _ _ Hinj Hin Hc Hvar). }
  split; [exact Hall | ].
  intros c k e var val Hin Hvar.
  assert (HinH : In (HealthCheck c k (inl e)) H).
  { apply in_app_or in Hin. destruct Hin as [Hin|Hin].
    - exfalso.
      apply (@no_check_before _ [] (HealthCheck c k (inl e))
               (pull_log_all_pulls HP) (Forall_nil _) eq_refl).
      rewrite app_nil_r. exact Hin.
    - apply in_app_or in Hin. destruct Hin as [Hin|Hin]; [ | exact Hin].
      exfalso.
      apply (@no_check_before [] _ (HealthCheck c k (inl e))
               (Forall_nil _) (run_log_all_runs HR) eq_refl).
      exact Hin. }
  destruct (@health_log_entries _ _ _ _ HH _ _ _ HinH) as [n [Hn Hc]].
  exact (Hall n k c var val Hn Hc Hvar).
Qed.

(** ** The map a start call is handed, by value *)

Lemma registered_after_other m st x :
  ~ In x (map name (map fst st)) ->
  Dict.get x (registered_after m st) = Dict.get x m.
Proof.
  unfold registered_after. revert m.
  induction st as [|[c k] st IH]; simpl; intros m Hnotin.
  - reflexivity.
  - rewrite IH by (intro Hin; apply Hnotin; right; exact Hin).
    apply dict_get_set_other. intro Heq. apply Hnotin. left.
    symmetry. exact Heq.
Qed.

Lemma registered_after_get m st :
  NoDup (map name (map fst st)) ->
  forall A kA, In (A, kA) st ->
    Dict.get (name A) (registered_after m st) = Some kA.
Proof.
  revert m. induction st as [|[c k] st IH]; simpl; intros m Hnd A kA Hin.
  - destruct Hin.
  - inversion Hnd as [|x xs Hnotin Hnd']; subst.
    destruct Hin as [Heq|Hin].
    + injection Heq as <- <-.
      change (Dict.get (name c)
                (registered_after (Dict.set (name c) k m) st) = Some k).
      rewrite (registered_after_other _ _ _ Hnotin).
      apply dict_get_set_same.
    + exact (IH (Dict.set (name c) k m) Hnd' A kA Hin).
Qed.


(** The map the start loop leaves, by value. *)
Lemma run_log_final_value m cfgs R r m' :
  run_log m cfgs R r m' ->
  m' = registered_after m (started_of R) /\
  exists rest, cfgs = map fst (started_of R) ++ rest.
Proof.
  induction 1 as [m|m c k cs log r m' H [IH1 [rest IH2]]|m c cs e]; simpl.
  - split; [reflexivity | exists []; reflexivity].
  - split; [exact IH1 | ]. exists rest. rewrite IH2. reflexivity.
  - split; [reflexivity | exists (c :: cs); reflexivity].
Qed.

(** Over a registry that stores every spec under its own name, the
    resolved specs have pairwise distinct names, and so has every initial
    part of them. *)
Lemma resolved_prefix_distinct CONFIGS names cfgs
    (st : list (ContainerConfig * RunningContainer)) rest :
  registry_wf CONFIGS ->
  resolve_container_set CONFIGS names = inr cfgs ->
  cfgs = map fst st ++ rest ->
  NoDup (map name (map fst st)).
Proof.
  intros Hwf Hres Heq.
  destruct (resolve_returned _ _ Hres) as [Hsome Hnd].
  destruct (resolved_names Hwf _ _ Hsome) as [Hnames _].
  rewrite <- Hnames, Heq, map_app in Hnd.
  exact (NoDup_app_remove_r _ _ Hnd).
Qed.


(** ** [tox_runtest_post] *)

Lemma containers_and_configs_of_returned CONFIGS its :
  forall l,
    containers_and_configs_of CONFIGS its = inr l ->
    Forall2 (fun nk ck => Dict.get (fst nk) CONFIGS = Some (fst ck) /\
                          snd ck = snd nk) its l.
Proof.
  induction its as [|[n k] rest IH]; simpl; intros l H.
  - injection H as <-. constructor.
  - destruct (Dict.get n CONFIGS) as [c|] eqn:Hc; [ | discriminate H].
    destruct (containers_and_configs_of CONFIGS rest) as [e|l'];
      [discriminate H | ].
    injection H as <-. constructor.
    + split; [exact Hc | reflexivity].
    + apply IH. reflexivity.
Qed.

Lemma tox_runtest_post_spec (W : Type) (engine : Engine W)
    (venv : VirtualEnv) (s s' : State W) (r : result unit) :
  tox_runtest_post engine venv s = (r, s') ->
  CONTAINER_CONFIGS s' = CONTAINER_CONFIGS s /\
  ENV_CONTAINERS s' = ENV_CONTAINERS s /\
  setenv s' = setenv s /\
  match Dict.get (envname venv) (ENV_CONTAINERS s) with
  | None =>
      r = inl (AttributeError "'list' object has no attribute 'items'") /\
      s' = s
  | Some m =>
      match containers_and_configs_of (CONTAINER_CONFIGS s) (Dict.items m) with
      | inl e => r = inl e /\ s' = s
      | inr l => engine_calls s' = engine_calls s ++ [Stop l r]
      end
  end.
Proof.
  unfold tox_runtest_post, bind, gets, lift. intro H.
  destruct (Dict.get (envname venv) (ENV_CONTAINERS s)) as [m|]; simpl in H.
  - destruct (containers_and_configs_of (CONTAINER_CONFIGS s) (Dict.items m))
      as [e|l].
    + injection H as <- <-. repeat split.
    + unfold call_stop_containers, logged in H.
      destruct (stop_containers engine l (engine_state s)) as [r0 w].
      injection H as <- <-. simpl. repeat split.
  - injection H as <- <-. repeat split.
Qed.

(** C2 (amended). The teardown hook removes no entry: whatever way it ends,
    [ENV_CONTAINERS] is what it was before the call, entries outside the
    exclusion set included.  When it returns, it has made one
    [stop_containers] call, with the container of every entry of the
    environment's map, in order, each paired with the spec registered under
    the entry's name. *)
Theorem tox_runtest_post_keeps_registry (W : Type) (engine : Engine W)
    (venv : VirtualEnv) (s s' : State W) (r : result unit) :
  tox_runtest_post engine venv s = (r, s') ->
  ENV_CONTAINERS s' = ENV_CONTAINERS s /\
  (forall u, r = inr u ->
     exists l,
       engine_calls s' = engine_calls s ++ [Stop l (inr u)] /\
       Forall2 (fun nk ck =>
                  Dict.get (fst nk) (CONTAINER_CONFIGS s) = Some (fst ck) /\
                  snd ck = snd nk)
         (Dict.items (env_map s venv)) l).
Proof.
  intro H. apply tox_runtest_post_spec in H.
  destruct H as (_ & He & _ & H). split; [exact He | ].
  intros u ->. unfold env_map.
  destruct (Dict.get (envname venv) (ENV_CONTAINERS s)) as [m|].
  - destruct (containers_and_configs_of (CONTAINER_CONFIGS s) (Dict.items m))
      as [e|l] eqn:Hl.
    + destruct H as [H _]. discriminate H.
    + exists l. split; [exact H | ].
      apply containers_and_configs_of_returned. exact Hl.
  - destruct H as [H _]. discriminate H.
Qed.

(** C10, on the code. For an environment with no entry in
    [ENV_CONTAINERS], the teardown hook raises [AttributeError]: the default
    of [ENV_CONTAINERS.get(venv, [])] is a list, which has no [items].  No
    engine call is made and the state is untouched. *)
Theorem tox_runtest_post_unregistered_raises (W : Type) (engine : Engine W)
    (venv : VirtualEnv) (s : State W) :
  Dict.get (envname venv) (ENV_CONTAINERS s) = None ->
  tox_runtest_post engine venv s
  = (inl (AttributeError "'list' object has no attribute 'items'"), s).
Proof.
  intro H. unfold tox_runtest_post, bind, gets, lift. rewrite H. reflexivity.
Qed.

(** Teardown of an environment whose setup never ran. *)
Lemma tox_runtest_post_unregistered_raises_witness :
  tox_runtest_post (example_engine "" "") (py ["db"])
    (example_state no_variables)
  = (inl (AttributeError "'list' object has no attribute 'items'"),
     example_state no_variables).
Proof.
  apply (@tox_runtest_post_unregistered_raises nat (example_engine "" "")
           (py ["db"]) (example_state no_variables)).
  reflexivity.
Defined.

(** ** [tox_configure] *)

Lemma validate_dont_stop_raised known dont_stop :
  forall e,
    validate_dont_stop known dont_stop = inl e ->
    exists x, e = ValueError (NotFoundDontStop x) /\
              first_unknown known dont_stop x.
Proof.
  induction dont_stop as [|y rest IH]; simpl; intros e H.
  - discriminate H.
  - destruct (existsb (String.eqb y) known) eqn:Hy.
    + apply existsb_eqb_In in Hy.
      destruct (IH e H) as (x & -> & before & rest' & -> & Hb & Hx).
      exists x. split; [reflexivity | ].
      exists (y :: before), rest'. repeat split; [ | exact Hx].
      intros z [<-|Hz]; [exact Hy | exact (Hb z Hz)].
    + apply existsb_eqb_not_In in Hy. injection H as <-.
      exists y. split; [reflexivity | ].
      exists [], rest. repeat split; [intros z [] | exact Hy].
Qed.

Lemma validate_dont_stop_first_unknown known dont_stop x :
  first_unknown known dont_stop x ->
  validate_dont_stop known dont_stop = inl (ValueError (NotFoundDontStop x)).
Proof.
  intros (before & rest & -> & Hb & Hx).
  induction before as [|y before IH]; simpl.
  - apply existsb_eqb_not_In in Hx. rewrite Hx. reflexivity.
  - assert (Hy : existsb (String.eqb y) known = true)
      by (apply existsb_eqb_In; apply Hb; left; reflexivity).
    rewrite Hy. apply IH. intros z Hz. apply Hb. right. exact Hz.
Qed.

Lemma validate_dont_stop_returned known dont_stop :
  validate_dont_stop known dont_stop = inr tt <->
  (forall y, In y dont_stop -> In y known).
Proof.
  induction dont_stop as [|y rest IH]; simpl.
  - split; [intros _ y [] | reflexivity].
  - destruct (existsb (String.eqb y) known) eqn:Hy.
    + apply existsb_eqb_In in Hy. rewrite IH. split.
      * intros H z [<-|Hz]; [exact Hy | exact (H z Hz)].
      * intros H z Hz. apply H. right. exact Hz.
    + apply existsb_eqb_not_In in Hy. split; [discriminate | ].
      intro H. exfalso. apply Hy. apply H. left. reflexivity.
Qed.

(** C8 (amended). The validation of the exclusion list raises the fatal
    error that names [x] exactly when [x] is the first entry of the list
    that is not a discovered container name, and [tox_configure] then
    raises it with the state untouched; it raises at all exactly when some
    entry is unknown; and when every entry is known, [tox_configure] goes
    on to parse the container sections. *)
Theorem tox_configure_checks_dont_stop (W Config : Type)
    (reader : ConfigReader Config) (config : Config) (s : State W) :
  (forall x,
     validate_dont_stop (discover_container_configs reader config)
       (docker_dont_stop reader config)
     = inl (ValueError (NotFoundDontStop x)) <->
     first_unknown (discover_container_configs reader config)
       (docker_dont_stop reader config) x) /\
  (forall x,
     first_unknown (discover_container_configs reader config)
       (docker_dont_stop reader config) x ->
     tox_configure reader config s
     = (inl (ValueError (NotFoundDontStop x)), s)) /\
  ((exists e,
      validate_dont_stop (discover_container_configs reader config)
        (docker_dont_stop reader config) = inl e) <->
   (exists x, In x (docker_dont_stop reader config) /\
              ~ In x (discover_container_configs reader config))) /\
  ((forall y, In y (docker_dont_stop reader config) ->
              In y (discover_container_configs reader config)) ->
   tox_configure reader config s
   = parse_loop reader config (discover_container_configs reader config) s).
Proof.
  set (known := discover_container_configs reader config).
  set (opts := docker_dont_stop reader config).
  split; [ | split; [ | split]].
  - intro x. split.
    + intro H. destruct (validate_dont_stop_raised _ _ H) as (x' & Heq & Hx).
      injection Heq as <-. exact Hx.
    + apply validate_dont_stop_first_unknown.
  - intros x Hx. unfold tox_configure, bind, lift. fold known opts.
    rewrite (validate_dont_stop_first_unknown Hx). reflexivity.
  - split.
    + intros [e H].
      destruct (validate_dont_stop_raised _ _ H)
        as (x & _ & before & rest & Heq & _ & Hx).
      exists x. split; [ | exact Hx].
      rewrite Heq. apply in_or_app. right. left. reflexivity.
    + intros [x [Hin Hx]].
      destruct (validate_dont_stop known opts) as [e|[]] eqn:H.
      * exists e. reflexivity.
      * exfalso. apply Hx.
        exact (proj1 (validate_dont_stop_returned known opts) H x Hin).
  - intro Hall. unfold tox_configure, bind, lift. fold known opts.
    rewrite (proj2 (validate_dont_stop_returned known opts) Hall).
    reflexivity.
Qed.

(** * Examples *)

Lemma example_configs_wf : registry_wf example_configs.
Proof.
  intros n c H. unfold example_configs in H. simpl in H.
  destruct (String.eqb_spec n "db") as [->|_];
    [injection H as <-; reflexivity | ].
  destruct (String.eqb_spec n "web") as [->|_];
    [injection H as <-; reflexivity | ].
  destruct (String.eqb_spec n "cache") as [->|_];
    [injection H as <-; reflexivity | discriminate H].
Qed.

(** The health check of [web], the second container started, fails: [db]
    and [web] are the containers checked, [cache] is not, and the three
    stay registered. *)
Lemma tox_runtest_pre_fail_fast_witness :
  checked_of (engine_calls (snd web_unhealthy_run))
  = firstn (length (checked_of (engine_calls (snd web_unhealthy_run))))
      (started_of (engine_calls (snd web_unhealthy_run))) /\
  (forall c' k',
     In (c', k') (started_of (engine_calls (snd web_unhealthy_run))) ->
     Dict.get (name c')
       (env_map (snd web_unhealthy_run) (py ["db"; "web"; "cache"]))
     = Some k').
Proof.
  refine (proj2 (proj2
    (@tox_runtest_pre_fail_fast nat (example_engine "" "web")
       (py ["db"; "web"; "cache"]) (example_state no_variables)
       (snd web_unhealthy_run) (fst web_unhealthy_run)
       (engine_calls (snd web_unhealthy_run))
       (removelast (engine_calls (snd web_unhealthy_run))) []
       web_config (container_for web_config) "timed out"
       _ _ _)) example_configs_wf _);
    vm_compute; reflexivity.
Defined.

(** * Counterexamples and the remaining examples *)

(** C3, as stated, fails: the health check of [web] failed and that of
    [cache] was never attempted, yet the variables of both are injected. *)
Lemma injection_ignores_health :
  In (HealthCheck web_config (container_for web_config)
        (inl (HealthCheckFailed "timed out")))
     (engine_calls (snd web_unhealthy_run)) /\
  ~ In (cache_config, container_for cache_config)
       (checked_of (engine_calls (snd web_unhealthy_run))) /\
  Dict.get "web_HOST" (no_variables "py") = None /\
  Dict.get "cache_HOST" (no_variables "py") = None /\
  Dict.get "web_HOST" (setenv (snd web_unhealthy_run) "py")
  = Some "127.0.0.1" /\
  Dict.get "cache_HOST" (setenv (snd web_unhealthy_run) "py")
  = Some "127.0.0.1".
Proof.
  vm_compute. repeat split.
  - do 7 right. left. reflexivity.
  - intros [H|[H|[]]]; discriminate H.
Qed.

(** The variable of [web], whose health check failed, is in the map. *)
Lemma tox_runtest_pre_injects_all_witness :
  Dict.mem "web_HOST" (setenv (snd web_unhealthy_run) "py") = true.
Proof.
  refine (proj2
    (@tox_runtest_pre_injects_all nat (example_engine "" "web")
       (py ["db"; "web"; "cache"]) (example_state no_variables)
       (snd web_unhealthy_run) (engine_calls (snd web_unhealthy_run))
       _ _)
    web_config (container_for web_config) (HealthCheckFailed "timed out")
    "web_HOST" "127.0.0.1" _ _).
  - vm_compute. reflexivity.
  - vm_compute. reflexivity.
  - vm_compute. do 7 right. left. reflexivity.
  - vm_compute. left. reflexivity.
Defined.



(** The variable the environment declares keeps its value, although [db]
    exports a variable of the same name. *)
Lemma tox_runtest_pre_keeps_setenv_witness :
  Dict.get "db_HOST" (setenv (snd preset_run) "py") = Some "10.0.0.7".
Proof.
  refine (@tox_runtest_pre_keeps_setenv nat (example_engine "" "")
            (py ["db"]) (example_state preset_variables) (snd preset_run)
            (fst preset_run) "py" "db_HOST" "10.0.0.7" _ _);
    vm_compute; reflexivity.
Defined.

(** The pull of [web] raises: the hook ends with that exception, nothing
    is registered and only pulls were issued. *)
Lemma tox_runtest_pre_pulls_before_runs_witness :
  fst web_pull_raises_run = inl (EngineError "pull failed") /\
  ENV_CONTAINERS (snd web_pull_raises_run)
  = ENV_CONTAINERS (example_state no_variables) /\
  (forall ev, In ev (engine_calls (snd web_pull_raises_run)) ->
              is_pull ev = true).
Proof.
  refine (proj1
    (@tox_runtest_pre_pulls_before_runs nat (example_engine "web" "")
       (py ["db"; "web"]) (example_state no_variables)
       (snd web_pull_raises_run) (fst web_pull_raises_run)
       (engine_calls (snd web_pull_raises_run)) _ _)
    web_config (EngineError "pull failed") _).
  - vm_compute. reflexivity.
  - vm_compute. reflexivity.
  - vm_compute. right. left. reflexivity.
Defined.

(** C2, as stated, fails: with an empty exclusion set, the teardown of an
    environment that runs [db] returns and [db] is still in the map. *)
Lemma teardown_leaves_entries :
  fst db_teardown = inr tt /\
  ~ cleanup_complete [] (env_map (snd db_teardown) (py ["db"])).
Proof.
  split; [vm_compute; reflexivity | ].
  intro H. apply (H "db"). vm_compute. reflexivity.
Qed.

(** The teardown of [db] leaves the registry as the setup left it. *)
Lemma tox_runtest_post_keeps_registry_witness :
  ENV_CONTAINERS (snd db_teardown) = ENV_CONTAINERS db_running_state.
Proof.
  refine (proj1
    (@tox_runtest_post_keeps_registry nat (example_engine "" "")
       (py ["db"]) db_running_state (snd db_teardown) (fst db_teardown)
       _)).
  vm_compute. reflexivity.
Defined.

(** C8, as stated, fails: with two unknown entries the error names the
    first, so for the second, which is unknown too, configuration does not
    fail with an error that names it. *)
Lemma second_unknown_is_not_named :
  ~ (forall X,
       In X (docker_dont_stop example_reader two_unknown) ->
       (fst (tox_configure example_reader two_unknown
               (example_state no_variables))
        = inl (ValueError (NotFoundDontStop X)) <->
        ~ In X (discover_container_configs example_reader two_unknown))).
Proof.
  intro H.
  destruct (H "phantom" (or_intror (or_introl eq_refl))) as [_ H2].
  assert (Hunknown : ~ In "phantom"
            (discover_container_configs example_reader two_unknown)).
  { intros [Heq|[]]. discriminate Heq. }
  specialize (H2 Hunknown). vm_compute in H2. discriminate H2.
Qed.

(** * Further properties of the hooks *)

(** ** [tox_configure]: the parse loop *)

(** The loop of lines 48-51 over any part [l] of the discovered names,
    [all] being the whole list handed to [parse_container_config]. *)
Lemma parse_steps_spec (W Config : Type) (reader : ConfigReader Config)
    (config : Config) (all l : list string) :
  forall (s s' : State W) (r : result unit),
    for_each l
      (fun container_name =>
         container_config <-
           lift (parse_container_config reader config container_name all) ;;
         store_config container_name container_config) s = (r, s') ->
    (ENV_CONTAINERS s' = ENV_CONTAINERS s /\
     setenv s' = setenv s /\
     engine_state s' = engine_state s /\
     engine_calls s' = engine_calls s) /\
    exists done,
      (forall n, In n done ->
         exists c, parse_container_config reader config n all = inr c /\
                   Dict.get n (CONTAINER_CONFIGS s') = Some c) /\
      (forall n, ~ In n done ->
         Dict.get n (CONTAINER_CONFIGS s') = Dict.get n (CONTAINER_CONFIGS s)) /\
      match r with
      | inr _ => done = l
      | inl e =>
          exists n rest,
            l = done ++ n :: rest /\
            parse_container_config reader config n all = inl e
      end.
Proof.
  induction l as [|n l IH]; intros s s' r H; simpl in H.
  - injection H as <- <-. split; [repeat split | ].
    exists []. repeat split; intros n [].
  - unfold bind at 1, bind at 1, lift at 1 in H.
    destruct (parse_container_config reader config n all) as [e|c] eqn:Hp.
    + injection H as <- <-. split; [repeat split | ].
      exists []. repeat split; try (intros n' []).
      exists n, l. split; [reflexivity | exact Hp].
    + unfold store_config at 1 in H. apply IH in H. simpl in H.
      destruct H as [Hframe (done & Hdone & Hrest & Hr)].
      split; [exact Hframe | ].
      exists (n :: done). repeat split.
      * intros n' [<-|Hin]; [ | exact (Hdone n' Hin)].
        destruct (in_dec string_dec n done) as [Hin|Hnotin].
        -- exact (Hdone n Hin).
        -- exists c. split; [exact Hp | ].
           rewrite (Hrest n Hnotin). apply dict_get_set_same.
      * intros n' Hnotin. rewrite Hrest.
        -- apply dict_get_set_other. intro Heq. apply Hnotin. left.
           symmetry. exact Heq.
        -- intro Hin. apply Hnotin. right. exact Hin.
      * destruct r as [e|u].
        -- destruct Hr as (n' & rest & -> & Hn').
           exists n', rest. split; [reflexivity | exact Hn'].
        -- rewrite Hr. reflexivity.
Qed.

Lemma tox_configure_cases (W Config : Type) (reader : ConfigReader Config)
    (config : Config) (s s' : State W) (r : result unit) :
  tox_configure reader config s = (r, s') ->
  (exists e,
     validate_dont_stop (discover_container_configs reader config)
       (docker_dont_stop reader config) = inl e /\
     r = inl e /\ s' = s) \/
  (validate_dont_stop (discover_container_configs reader config)
     (docker_dont_stop reader config) = inr tt /\
   parse_loop reader config (discover_container_configs reader config) s
   = (r, s')).
Proof.
  unfold tox_configure, bind, lift. intro H.
  destruct (validate_dont_stop (discover_container_configs reader config)
              (docker_dont_stop reader config)) as [e|[]].
  - left. exists e. injection H as <- <-. repeat split.
  - right. split; [reflexivity | exact H].
Qed.

(** X1. When [tox_configure] returns, every discovered container name is
    registered in [CONTAINER_CONFIGS] with the spec that
    [parse_container_config] gives for it, and the registration of every
    other name is what it was. *)
Theorem tox_configure_registers (W Config : Type)
    (reader : ConfigReader Config) (config : Config) (s s' : State W) :
  tox_configure reader config s = (inr tt, s') ->
  (forall n, In n (discover_container_configs reader config) ->
     exists c,
       parse_container_config reader config n
         (discover_container_configs reader config) = inr c /\
       Dict.get n (CONTAINER_CONFIGS s') = Some c) /\
  (forall n, ~ In n (discover_container_configs reader config) ->
     Dict.get n (CONTAINER_CONFIGS s') = Dict.get n (CONTAINER_CONFIGS s)).
Proof.
  intro H. apply tox_configure_cases in H.
  destruct H as [(e & _ & He & _)|[_ H]]; [discriminate He | ].
  unfold parse_loop in H. apply parse_steps_spec in H.
  destruct H as [_ (done & Hdone & Hrest & ->)].
  split; assumption.
Qed.

(** X2. Whatever way [tox_configure] ends, it leaves [ENV_CONTAINERS], the
    variable maps and the container engine alone: no engine call is made at
    configuration time. *)
Theorem tox_configure_touches_registry_only (W Config : Type)
    (reader : ConfigReader Config) (config : Config) (s s' : State W)
    (r : result unit) :
  tox_configure reader config s = (r, s') ->
  ENV_CONTAINERS s' = ENV_CONTAINERS s /\
  setenv s' = setenv s /\
  engine_state s' = engine_state s /\
  engine_calls s' = engine_calls s.
Proof.
  intro H. apply tox_configure_cases in H.
  destruct H as [(e & _ & _ & ->)|[_ H]]; [repeat split | ].
  unfold parse_loop in H. apply parse_steps_spec in H. exact (proj1 H).
Qed.

(** X3. When [tox_configure] raises, either the validation of the exclusion
    list raised and nothing was registered, or the exception is that of the
    first discovered section whose parse raises, and the sections before it
    are registered: the registry is left partly filled. *)
Theorem tox_configure_raises (W Config : Type)
    (reader : ConfigReader Config) (config : Config) (s s' : State W)
    (e : exn) :
  tox_configure reader config s = (inl e, s') ->
  (validate_dont_stop (discover_container_configs reader config)
     (docker_dont_stop reader config) = inl e /\ s' = s) \/
  (exists before n rest,
     discover_container_configs reader config = before ++ n :: rest /\
     parse_container_config reader config n
       (discover_container_configs reader config) = inl e /\
     (forall m, In m before ->
        exists c,
          parse_container_config reader config m
            (discover_container_configs reader config) = inr c /\
          Dict.get m (CONTAINER_CONFIGS s') = Some c) /\
     (forall m, ~ In m before ->
        Dict.get m (CONTAINER_CONFIGS s')
        = Dict.get m (CONTAINER_CONFIGS s))).
Proof.
  intro H. apply tox_configure_cases in H.
  destruct H as [(e' & Hv & He & ->)|[_ H]].
  - left. injection He as <-. split; [exact Hv | reflexivity].
  - right. unfold parse_loop in H. apply parse_steps_spec in H.
    destruct H as [_ (done & Hdone & Hrest & n & rest & Hl & Hn)].
    exists done, n, rest. repeat split; assumption.
Qed.

(** X4. If [parse_container_config] gives every spec the name it was asked
    for, [tox_configure] keeps the registry well formed (every spec stored
    under its own name), whatever way it ends. *)
Theorem tox_configure_keeps_registry_wf (W Config : Type)
    (reader : ConfigReader Config) (config : Config) (s s' : State W)
    (r : result unit) :
  (forall n c,
     parse_container_config reader config n
       (discover_container_configs reader config) = inr c -> name c = n) ->
  registry_wf (CONTAINER_CONFIGS s) ->
  tox_configure reader config s = (r, s') ->
  registry_wf (CONTAINER_CONFIGS s').
Proof.
  intros Hparse Hwf H. apply tox_configure_cases in H.
  destruct H as [(e & _ & _ & ->)|[_ H]]; [exact Hwf | ].
  unfold parse_loop in H. apply parse_steps_spec in H.
  destruct H as [_ (done & Hdone & Hrest & _)].
  intros n c Hc. destruct (in_dec string_dec n done) as [Hin|Hnotin].
  - destruct (Hdone n Hin) as (c' & Hp & Hget).
    rewrite Hget in Hc. injection Hc as <-. exact (Hparse n c' Hp).
  - rewrite (Hrest n Hnotin) in Hc. exact (Hwf n c Hc).
Qed.

(** ** Which name a resolution error names *)

Lemma resolve_loop_missing_iff CONFIGS names :
  forall seen acc n,
    resolve_loop CONFIGS names seen acc = inl (ValueError (MissingSection n))
    <->
    exists before rest,
      names = before ++ n :: rest /\
      NoDup before /\
      (forall m, In m before -> Dict.get m CONFIGS <> None /\ ~ In m seen) /\
      Dict.get n CONFIGS = None.
Proof.
  induction names as [|x names IH]; intros seen acc n; simpl.
  - split; [discriminate | ].
    intros (before & rest & H & _). destruct before; discriminate H.
  - destruct (Dict.get x CONFIGS) as [c|] eqn:Hx.
    + destruct (existsb (String.eqb x) seen) eqn:Hseen.
      * split; [discriminate | ].
        intros (before & rest & H & _ & Hb & Hn).
        destruct before as [|y before]; simpl in H; injection H as <- _.
        -- rewrite Hx in Hn. discriminate Hn.
        -- apply existsb_eqb_In in Hseen.
           exfalso. exact (proj2 (Hb x (or_introl eq_refl)) Hseen).
      * apply existsb_eqb_not_In in Hseen. rewrite IH. split.
        -- intros (before & rest & -> & Hnd & Hb & Hn).
           exists (x :: before), rest. repeat split; try assumption.
           ++ constructor; [ | exact Hnd].
              intro Hin. apply (proj2 (Hb x Hin)). left. reflexivity.
           ++ destruct H as [<-|Hin]; [rewrite Hx; discriminate | ].
              exact (proj1 (Hb m Hin)).
           ++ destruct H as [<-|Hin]; [exact Hseen | ].
              intro Hs. apply (proj2 (Hb m Hin)). right. exact Hs.
        -- intros (before & rest & H & Hnd & Hb & Hn).
           destruct before as [|y before]; simpl in H; injection H as <- H.
           ++ rewrite Hx in Hn. discriminate Hn.
           ++ subst names. inversion Hnd as [|y ys Hnotin Hnd']; subst.
              exists before, rest. repeat split; try assumption.
              ** exact (proj1 (Hb m (or_intror H))).
              ** intros [<-|Hs]; [exact (Hnotin H) | ].
                 exact (proj2 (Hb m (or_intror H)) Hs).
    + split.
      * intro H. injection H as <-. exists [], names.
        repeat split; [constructor | destruct H | destruct H | exact Hx].
      * intros (before & rest & H & _ & Hb & Hn).
        destruct before as [|y before]; simpl in H; injection H as <- _.
        -- reflexivity.
        -- exfalso. exact (proj1 (Hb x (or_introl eq_refl)) Hx).
Qed.

Lemma resolve_loop_repeated_iff CONFIGS names :
  forall seen acc n,
    resolve_loop CONFIGS names seen acc
    = inl (ValueError (SpecifiedMoreThanOnce n))
    <->
    exists before rest,
      names = before ++ n :: rest /\
      NoDup before /\
      (forall m, In m before -> Dict.get m CONFIGS <> None /\ ~ In m seen) /\
      Dict.get n CONFIGS <> None /\
      (In n before \/ In n seen).
Proof.
  induction names as [|x names IH]; intros seen acc n; simpl.
  - split; [discriminate | ].
    intros (before & rest & H & _). destruct before; discriminate H.
  - destruct (Dict.get x CONFIGS) as [c|] eqn:Hx.
    + destruct (existsb (String.eqb x) seen) eqn:Hseen.
      * apply existsb_eqb_In in Hseen. split.
        -- intro H. injection H as <-. exists [], names.
           repeat split;
             [constructor | destruct H | destruct H
             | rewrite Hx; discriminate | right; exact Hseen].
        -- intros (before & rest & H & _ & Hb & _).
           destruct before as [|y before]; simpl in H; injection H as <- _.
           ++ reflexivity.
           ++ exfalso. exact (proj2 (Hb x (or_introl eq_refl)) Hseen).
      * apply existsb_eqb_not_In in Hseen. rewrite IH. split.
        -- intros (before & rest & -> & Hnd & Hb & Hn & Hin).
           exists (x :: before), rest. repeat split; try assumption.
           ++ constructor; [ | exact Hnd].
              intro Hi. apply (proj2 (Hb x Hi)). left. reflexivity.
           ++ destruct H as [<-|Hi]; [rewrite Hx; discriminate | ].
              exact (proj1 (Hb m Hi)).
           ++ destruct H as [<-|Hi]; [exact Hseen | ].
              intro Hs. apply (proj2 (Hb m Hi)). right. exact Hs.
           ++ destruct Hin as [Hi|[<-|Hs]].
              ** left. right. exact Hi.
              ** left. left. reflexivity.
              ** right. exact Hs.
        -- intros (before & rest & H & Hnd & Hb & Hn & Hin).
           destruct before as [|y before]; simpl in H; injection H as <- H.
           ++ exfalso. destruct Hin as [[]|Hs]. exact (Hseen Hs).
           ++ subst names. inversion Hnd as [|y ys Hnotin Hnd']; subst.
              exists before, rest. repeat split; try assumption.
              ** exact (proj1 (Hb m (or_intror H))).
              ** intros [<-|Hs]; [exact (Hnotin H) | ].
                 exact (proj2 (Hb m (or_intror H)) Hs).
              ** destruct Hin as [[<-|Hi]|Hs].
                 --- right. left. reflexivity.
                 --- left. exact Hi.
                 --- right. right. exact Hs.
    + split; [discriminate | ].
      intros (before & rest & H & _ & Hb & Hn & _).
      destruct before as [|y before]; simpl in H; injection H as <- _.
      * exfalso. exact (Hn Hx).
      * exfalso. exact (proj1 (Hb x (or_introl eq_refl)) Hx).
Qed.

(** X5. Resolution raises "Missing [docker:n] in tox.ini" exactly for the
    first name [n] of the declared list that has no section, provided the
    names before it all have a section and do not repeat. *)
Theorem resolve_names_first_missing (CONFIGS : Dict.t ContainerConfig)
    (names : list string) (n : string) :
  resolve_container_set CONFIGS names = inl (ValueError (MissingSection n))
  <->
  exists before rest,
    names = before ++ n :: rest /\
    NoDup before /\
    (forall m, In m before -> Dict.get m CONFIGS <> None) /\
    Dict.get n CONFIGS = None.
Proof.
  unfold resolve_container_set. rewrite resolve_loop_missing_iff. split.
  - intros (before & rest & H1 & H2 & H3 & H4).
    exists before, rest. repeat split; try assumption.
    intros m Hm. exact (proj1 (H3 m Hm)).
  - intros (before & rest & H1 & H2 & H3 & H4).
    exists before, rest. repeat split; try assumption.
    + exact (H3 m H).
    + intros [].
Qed.

(** X6. Resolution raises "Container n specified more than once" exactly at
    the first repetition: [n] has occurred before, and the names before this
    occurrence all have a section and do not repeat.  A repeated name
    without a section is reported as missing, not as repeated. *)
Theorem resolve_names_first_repeated (CONFIGS : Dict.t ContainerConfig)
    (names : list string) (n : string) :
  resolve_container_set CONFIGS names
  = inl (ValueError (SpecifiedMoreThanOnce n))
  <->
  exists before rest,
    names = before ++ n :: rest /\
    NoDup before /\
    (forall m, In m before -> Dict.get m CONFIGS <> None) /\
    In n before.
Proof.
  unfold resolve_container_set. rewrite resolve_loop_repeated_iff. split.
  - intros (before & rest & H1 & H2 & H3 & _ & [H5|[]]).
    exists before, rest. repeat split; try assumption.
    intros m Hm. exact (proj1 (H3 m Hm)).
  - intros (before & rest & H1 & H2 & H3 & H4).
    exists before, rest. repeat split; try assumption.
    + exact (H3 m H).
    + intros [].
    + exact (H3 n H4).
    + left. exact H4.
Qed.


(** ** The phases of a run of [tox_runtest_pre] *)

(** A run either stops before the start loop (resolution or a pull raised),
    or its log is made of the pulls, the starts and, when every start
    returned, the health checks, in this order. *)
Lemma pre_run_phases CONFIGS vars_of names m0 env0 r new touched env :
  pre_run CONFIGS vars_of names m0 env0 r new touched env ->
  (touched = None /\ env = env0 /\ (exists e, r = inl e) /\
   Forall (fun ev => is_pull ev = true) new) \/
  (exists cfgs P R m rr,
     touched = Some m /\
     resolve_container_set CONFIGS names = inr cfgs /\
     pull_log cfgs P (inr tt) /\
     run_log m0 cfgs R rr m /\
     ((exists e, rr = inl e /\ r = inl e /\ new = P ++ R /\ env = env0) \/
      (rr = inr tt /\
       exists H rh,
         new = P ++ R ++ H /\
         health_log CONFIGS (Dict.items m) H rh /\
         ((exists e, rh = inl e /\ r = inl e /\ env = env0) \/
          (rh = inr tt /\
           inject_all CONFIGS vars_of (Dict.items m) env0 = (r, env)))))).
Proof.
  intro Hrun.
  inversion Hrun as [e0 Hres|cfgs P e0 Hres HP|cfgs P R e0 m Hres HP HR
                    |cfgs P R m H e0 Hres HP HR HH
                    |cfgs P R m H r0 env1 Hres HP HR HH Hinj]; subst.
  - left. repeat split; [eexists; reflexivity | constructor].
  - left. repeat split; [eexists; reflexivity | ].
    exact (pull_log_all_pulls HP).
  - right. exists cfgs, P, R, m, (inl e0 : result unit).
    repeat split; try assumption.
    left. exists e0. repeat split.
  - right. exists cfgs, P, R, m, (inr tt : result unit).
    repeat split; try assumption.
    right. split; [reflexivity | ].
    exists H, (inl e0 : result unit). repeat split; try assumption.
    left. exists e0. repeat split.
  - right. exists cfgs, P, R, m, (inr tt : result unit).
    repeat split; try assumption.
    right. split; [reflexivity | ].
    exists H, (inr tt : result unit). repeat split; try assumption.
    right. split; [reflexivity | exact Hinj].
Qed.

Lemma run_log_raise_is_last m cfgs R r m' :
  run_log m cfgs R r m' ->
  forall l1 c mB e l2,
    R = l1 ++ Run c mB (inl e) :: l2 -> l2 = [] /\ r = inl e.
Proof.
  induction 1 as [m|m c k cs log r m' H IH|m c cs e];
    intros l1 c' mB e' l2 Heq.
  - destruct l1; discriminate Heq.
  - destruct l1 as [|ev l1]; simpl in Heq.
    + discriminate Heq.
    + injection Heq as _ Heq. exact (IH _ _ _ _ _ Heq).
  - destruct l1 as [|ev l1]; simpl in Heq.
    + injection Heq as _ _ <- <-. split; reflexivity.
    + injection Heq as _ Heq. destruct l1; discriminate Heq.
Qed.

Lemma health_log_outcome CONFIGS its H r :
  health_log CONFIGS its H r ->
  forall l1 c k e l2,
    H = l1 ++ HealthCheck c k (inl e) :: l2 ->
    r = if is_HealthCheckFailed e then inr tt else inl e.
Proof.
  induction 1; intros l1 c' k' e' l2 Heq.
  - destruct l1; discriminate Heq.
  - destruct l1 as [|ev l1]; simpl in Heq.
    + discriminate Heq.
    + injection Heq as _ Heq. exact (IHhealth_log _ _ _ _ _ Heq).
  - destruct l1 as [|ev l1]; simpl in Heq.
    + injection Heq as _ _ <- _. reflexivity.
    + injection Heq as _ Heq. destruct l1; discriminate Heq.
  - destruct l1 as [|ev l1]; simpl in Heq.
    + injection Heq as _ _ <- _. rewrite H0. reflexivity.
    + injection Heq as _ Heq. destruct l1; discriminate Heq.
  - destruct l1; discriminate Heq.
Qed.

Lemma inject_all_raised CONFIGS vars_of its :
  forall env e env',
    inject_all CONFIGS vars_of its env = (inl e, env') ->
    exists n k, In (n, k) its /\ Dict.get n CONFIGS = None /\ e = KeyError n.
Proof.
  induction its as [|[n k] rest IH]; simpl; intros env e env' H.
  - discriminate H.
  - destruct (Dict.get n CONFIGS) as [c|] eqn:Hc.
    + destruct (IH _ _ _ H) as (n' & k' & Hin & Hn & He).
      exists n', k'. repeat split; [right; exact Hin | exact Hn | exact He].
    + injection H as <- _. exists n, k.
      repeat split; [left; reflexivity | exact Hc].
Qed.

Lemma update_if_not_present_origin vars :
  forall env var val,
    Dict.get var (update_if_not_present vars env) = Some val ->
    Dict.get var env = Some val \/ In (var, val) vars.
Proof.
  induction vars as [|[v w] rest IH]; simpl; intros env var val H.
  - left. exact H.
  - destruct (IH _ _ _ H) as [Hv|Hin]; [ | right; right; exact Hin].
    destruct (Dict.mem v env); [left; exact Hv | ].
    destruct (String.eqb_spec var v) as [->|Hne].
    + rewrite dict_get_set_same in Hv. injection Hv as <-.
      right. left. reflexivity.
    + rewrite (dict_get_set_other w env Hne) in Hv. left. exact Hv.
Qed.

Lemma inject_all_origin CONFIGS vars_of its :
  forall env r env' var val,
    inject_all CONFIGS vars_of its env = (r, env') ->
    Dict.get var env' = Some val ->
    Dict.get var env = Some val \/
    exists n k c,
      In (n, k) its /\ Dict.get n CONFIGS = Some c /\
      In (var, val) (Dict.items (vars_of c k)).
Proof.
  induction its as [|[n k] rest IH]; simpl; intros env r env' var val H Hv.
  - injection H as _ <-. left. exact Hv.
  - destruct (Dict.get n CONFIGS) as [c|] eqn:Hc.
    + destruct (IH _ _ _ _ _ H Hv) as [Hv'|(n' & k' & c' & Hin & Hc' & Hvar)].
      * destruct (update_if_not_present_origin _ _ _ Hv') as [Hv0|Hin].
        -- left. exact Hv0.
        -- right. exists n, k, c.
           repeat split; [left; reflexivity | exact Hc | exact Hin].
      * right. exists n', k', c'.
        repeat split; [right; exact Hin | exact Hc' | exact Hvar].
    + injection H as _ <-. left. exact Hv.
Qed.

Lemma update_if_not_present_absent vars :
  forall env var,
    ~ In var (map fst vars) ->
    Dict.get var (update_if_not_present vars env) = Dict.get var env.
Proof.
  induction vars as [|[v w] rest IH]; simpl; intros env var Hnotin.
  - reflexivity.
  - rewrite IH by (intro Hin; apply Hnotin; right; exact Hin).
    destruct (Dict.mem v env); [reflexivity | ].
    apply dict_get_set_other. intro Heq. apply Hnotin. left.
    symmetry. exact Heq.
Qed.

Lemma update_if_not_present_first vars :
  forall env l1 var val l2,
    vars = l1 ++ (var, val) :: l2 ->
    ~ In var (map fst l1) ->
    Dict.get var env = None ->
    Dict.get var (update_if_not_present vars env) = Some val.
Proof.
  intros env l1 var val l2 -> Hnotin Hv. revert env Hv.
  induction l1 as [|[v w] l1 IH]; simpl; intros env Hv.
  - apply update_if_not_present_preserves.
    unfold Dict.mem. rewrite Hv. apply dict_get_set_same.
  - apply IH.
    + intro Hin. apply Hnotin. right. exact Hin.
    + destruct (Dict.mem v env); [exact Hv | ].
      rewrite dict_get_set_other; [exact Hv | ].
      intro Heq. apply Hnotin. left. symmetry. exact Heq.
Qed.

(** ** [tox_runtest_pre]: frames and failures *)

(** X7. A run of the setup hook for one test environment leaves
    [CONTAINER_CONFIGS], the running-container map of every other
    environment and the variable map of every other environment as they
    were, whatever way it ends. *)
Theorem tox_runtest_pre_touches_own_environment (W : Type)
    (engine : Engine W) (venv : VirtualEnv) (s s' : State W)
    (r : result unit) :
  tox_runtest_pre engine venv s = (r, s') ->
  CONTAINER_CONFIGS s' = CONTAINER_CONFIGS s /\
  (forall e, e <> envname venv ->
     Dict.get e (ENV_CONTAINERS s') = Dict.get e (ENV_CONTAINERS s)) /\
  (forall e, e <> envname venv -> setenv s' e = setenv s e).
Proof.
  intro H. apply tox_runtest_pre_spec in H.
  destruct H as (H1 & H2 & H3 & _). repeat split; assumption.
Qed.

Lemma pulls_then_runs_read (P R : list event) :
  Forall (fun ev => is_pull ev = true) P ->
  Forall (fun ev => is_run ev = true) R ->
  checked_of (P ++ R) = [] /\ started_of (P ++ R) = started_of R.
Proof.
  intros HP HR. rewrite checked_of_app, started_of_app.
  destruct (pulls_read HP) as (-> & -> & _). rewrite (runs_read HR).
  split; reflexivity.
Qed.

(** X8. When a start call raises, the setup hook ends with that exception
    and the call is its last engine call: no health check is attempted and
    the variable map of the environment is as it was.  The containers
    started before it stay registered: the running-container map of the
    environment is the map before the run, updated in start order with each
    container started, stored under the name of its spec; over a registry
    that stores every spec under its own name, every container started is
    found under the name of its spec, so that the teardown can reach it. *)
Theorem tox_runtest_pre_start_raises (W : Type) (engine : Engine W)
    (venv : VirtualEnv) (s s' : State W) (r : result unit)
    (new l1 l2 : list event) (c : ContainerConfig)
    (m : Dict.t RunningContainer) (e : exn) :
  tox_runtest_pre engine venv s = (r, s') ->
  engine_calls s' = engine_calls s ++ new ->
  new = l1 ++ Run c m (inl e) :: l2 ->
  l2 = [] /\
  r = inl e /\
  checked_of new = [] /\
  setenv s' (envname venv) = setenv s (envname venv) /\
  env_map s' venv = registered_after (env_map s venv) (started_of new) /\
  (registry_wf (CONTAINER_CONFIGS s) ->
   forall c' k', In (c', k') (started_of new) ->
     Dict.get (name c') (env_map s' venv) = Some k').
Proof.
  intros Hpre Hlog Hnew.
  destruct (@tox_runtest_pre_log _ _ _ _ _ _ _ Hpre Hlog)
    as [touched [Hrun Ht]].
  assert (Hin : In (Run c m (inl e)) new)
    by (rewrite Hnew; apply in_or_app; right; left; reflexivity).
  destruct (pre_run_phases Hrun)
    as [(_ & _ & _ & Hall)|(cfgs & P & R & m' & rr & -> & Hres & HP & HR & Hcase)].
  - exfalso. rewrite Forall_forall in Hall. apply Hall in Hin.
    discriminate Hin.
  - pose proof (pull_log_all_pulls HP) as HallP.
    pose proof (run_log_all_runs HR) as HallR.
    assert (Hmap : env_map s' venv = m')
      by (unfold env_map; rewrite Ht; reflexivity).
    destruct Hcase as [(e0 & -> & -> & Hshape & Henv)
                      |(-> & H & rh & Hshape & HH & _)].
    + rewrite Hshape in Hnew. rewrite <- (app_nil_r (P ++ R)) in Hnew.
      rewrite <- app_assoc in Hnew.
      destruct (@locate_run _ _ _ _ _ (Run c m (inl e)) HallP
                  (Forall_nil _) eq_refl Hnew) as (l & l' & HR' & _ & Hl2).
      destruct (@run_log_raise_is_last _ _ _ _ _ HR _ _ _ _ _ HR')
        as [-> He].
      injection He as ->. rewrite app_nil_r in Hl2.
      rewrite Hshape, Hmap.
      destruct (pulls_then_runs_read HallP HallR) as [-> ->].
      destruct (run_log_final_value HR) as [Hm' [rest Hrest]].
      repeat split; try assumption.
      intros Hwf c' k' Hst. rewrite Hm'. apply registered_after_get.
      * exact (@resolved_prefix_distinct _ _ _ _ _ Hwf Hres Hrest).
      * exact Hst.
    + exfalso. rewrite Hshape in Hnew.
      destruct (@locate_run _ _ _ _ _ (Run c m (inl e)) HallP
                  (health_log_all_checks HH) eq_refl Hnew)
        as (l & l' & HR' & _ & _).
      destruct (@run_log_raise_is_last _ _ _ _ _ HR _ _ _ _ _ HR')
        as [_ He].
      discriminate He.
Qed.

(** X9. [HealthCheckFailed] is swallowed: in a run in which a health check
    ends in [HealthCheckFailed], the setup hook does not raise it.  The
    hook returns, unless the injection loop meets an entry of the map whose
    name has no spec and raises [KeyError]; over a registry that stores
    every spec under its own name, for an environment with no running
    container before the run, it returns. *)
Theorem tox_runtest_pre_swallows_health_check_failed (W : Type)
    (engine : Engine W) (venv : VirtualEnv) (s s' : State W)
    (r : result unit) (new : list event) (c : ContainerConfig)
    (k : RunningContainer) (text : string) :
  tox_runtest_pre engine venv s = (r, s') ->
  engine_calls s' = engine_calls s ++ new ->
  In (HealthCheck c k (inl (HealthCheckFailed text))) new ->
  (r = inr tt \/
   exists n k',
     r = inl (KeyError n) /\
     In (n, k') (Dict.items (env_map s' venv)) /\
     Dict.get n (CONTAINER_CONFIGS s) = None) /\
  (registry_wf (CONTAINER_CONFIGS s) -> env_map s venv = [] -> r = inr tt).
Proof.
  intros Hpre Hlog Hin.
  destruct (@tox_runtest_pre_log _ _ _ _ _ _ _ Hpre Hlog)
    as [touched [Hrun Ht]].
  destruct (pre_run_phases Hrun)
    as [(_ & _ & _ & Hall)|(cfgs & P & R & m' & rr & -> & Hres & HP & HR & Hcase)].
  - exfalso. rewrite Forall_forall in Hall. apply Hall in Hin.
    discriminate Hin.
  - pose proof (pull_log_all_pulls HP) as HallP.
    pose proof (run_log_all_runs HR) as HallR.
    assert (Hmap : env_map s' venv = m')
      by (unfold env_map; rewrite Ht; reflexivity).
    destruct Hcase as [(e0 & -> & -> & -> & _)
                      |(-> & H & rh & -> & HH & Hcase)].
    + exfalso.
      exact (@no_check_before _ _
               (HealthCheck c k (inl (HealthCheckFailed text)))
               HallP HallR eq_refl Hin).
    + assert (HinH : In (HealthCheck c k (inl (HealthCheckFailed text))) H).
      { rewrite app_assoc in Hin. apply in_app_or in Hin.
        destruct Hin as [Hin|Hin]; [ | exact Hin].
        exfalso.
        exact (@no_check_before _ _
                 (HealthCheck c k (inl (HealthCheckFailed text)))
                 HallP HallR eq_refl Hin). }
      destruct Hcase as [(e0 & -> & _)|(-> & Hinj)].
      * exfalso. exact (health_log_raised_not_failed HH _ _ _ HinH).
      * rewrite Hmap.
        assert (Hcases : r = inr tt \/
                  exists n k',
                    r = inl (KeyError n) /\ In (n, k') (Dict.items m') /\
                    Dict.get n (CONTAINER_CONFIGS s) = None).
        { destruct r as [e|[]]; [right | left; reflexivity].
          destruct (inject_all_raised _ _ _ _ Hinj) as (n & k' & H1 & H2 & ->).
          exists n, k'. repeat split; assumption. }
        split; [exact Hcases | ].
        intros Hwf Hfresh.
        destruct Hcases as [Hr|(n & k' & _ & Hitem & Hnone)]; [exact Hr | ].
        exfalso. rewrite Hfresh in HR.
        destruct (resolve_returned _ _ Hres) as [Hsome Hnd].
        destruct (resolved_names Hwf _ _ Hsome) as [Hnames Hfound].
        assert (Hm : m' = map (fun ck => (name (fst ck), snd ck))
                           (started_of R)).
        { apply (run_log_appends HR).
          - rewrite Hnames. exact Hnd.
          - intros c' _. reflexivity. }
        rewrite Hm in Hitem. unfold Dict.items in Hitem.
        apply in_map_iff in Hitem. destruct Hitem as [[c' k''] [Heq Hst]].
        simpl in Heq. injection Heq as <- _.
        rewrite Hfound in Hnone; [discriminate Hnone | ].
        rewrite <- (run_log_returned HR).
        apply in_map with (f := fst) in Hst. exact Hst.
Qed.

(** X10. An exception of a health check that is not [HealthCheckFailed]
    is not swallowed: the setup hook ends with it, the check is its last
    engine call, and no variable is injected. *)
Theorem tox_runtest_pre_health_check_raises (W : Type) (engine : Engine W)
    (venv : VirtualEnv) (s s' : State W) (r : result unit)
    (new l1 l2 : list event) (c : ContainerConfig) (k : RunningContainer)
    (e : exn) :
  tox_runtest_pre engine venv s = (r, s') ->
  engine_calls s' = engine_calls s ++ new ->
  new = l1 ++ HealthCheck c k (inl e) :: l2 ->
  is_HealthCheckFailed e = false ->
  l2 = [] /\
  r = inl e /\
  setenv s' (envname venv) = setenv s (envname venv).
Proof.
  intros Hpre Hlog Hnew He.
  destruct (@tox_runtest_pre_log _ _ _ _ _ _ _ Hpre Hlog)
    as [touched [Hrun Ht]].
  assert (Hin : In (HealthCheck c k (inl e)) new)
    by (rewrite Hnew; apply in_or_app; right; left; reflexivity).
  destruct (pre_run_phases Hrun)
    as [(_ & _ & _ & Hall)|(cfgs & P & R & m' & rr & -> & Hres & HP & HR & Hcase)].
  - exfalso. rewrite Forall_forall in Hall. apply Hall in Hin.
    discriminate Hin.
  - pose proof (pull_log_all_pulls HP) as HallP.
    pose proof (run_log_all_runs HR) as HallR.
    destruct Hcase as [(e0 & -> & -> & Hshape & _)
                      |(-> & H & rh & Hshape & HH & Hcase)].
    + exfalso. rewrite Hshape in Hin.
      exact (@no_check_before _ _ (HealthCheck c k (inl e))
               HallP HallR eq_refl Hin).
    + rewrite Hshape in Hnew.
      destruct (@locate_check _ _ _ _ _ (HealthCheck c k (inl e))
                  HallP HallR eq_refl Hnew) as [l [HH' _]].
      pose proof (@health_log_raise_is_last _ _ _ _ HH _ _ _ _ _ HH') as Hl2.
      pose proof (@health_log_outcome _ _ _ _ HH _ _ _ _ _ HH') as Hrh.
      rewrite He in Hrh.
      destruct Hcase as [(e0 & Hrh' & -> & Henv)|(Hrh' & _)].
      * rewrite Hrh in Hrh'. injection Hrh' as <-.
        repeat split; [exact Hl2 | exact Henv].
      * rewrite Hrh in Hrh'. discriminate Hrh'.
Qed.

(** ** [tox_runtest_pre]: the run in which every call returns *)

Lemma pre_run_stopped_early CONFIGS vars_of names m0 env0 r new env :
  pre_run CONFIGS vars_of names m0 env0 r new None env ->
  (exists e, resolve_container_set CONFIGS names = inl e) \/
  (exists cfgs e,
     resolve_container_set CONFIGS names = inr cfgs /\
     pull_log cfgs new (inl e)).
Proof.
  intro Hrun.
  inversion Hrun as [e0 Hres|cfgs P e0 Hres HP| | | ]; subst.
  - left. exists e0. exact Hres.
  - right. exists cfgs, e0. split; assumption.
Qed.

Lemma pull_log_all_returned cfgs P r :
  pull_log cfgs P r ->
  (forall ev, In ev P -> event_returned ev = true) -> r = inr tt.
Proof.
  induction 1 as [|c cs log r H IH|c cs e]; intro Hall.
  - reflexivity.
  - apply IH. intros ev Hin. apply Hall. right. exact Hin.
  - specialize (Hall _ (or_introl eq_refl)). discriminate Hall.
Qed.

Lemma run_log_all_returned m cfgs R r m' :
  run_log m cfgs R r m' ->
  (forall ev, In ev R -> event_returned ev = true) -> r = inr tt.
Proof.
  induction 1 as [m|m c k cs log r m' H IH|m c cs e]; intro Hall.
  - reflexivity.
  - apply IH. intros ev Hin. apply Hall. right. exact Hin.
  - specialize (Hall _ (or_introl eq_refl)). discriminate Hall.
Qed.

Lemma health_log_all_returned CONFIGS
    (st : list (ContainerConfig * RunningContainer)) :
  (forall c k, In (c, k) st -> Dict.get (name c) CONFIGS = Some c) ->
  forall H r,
    health_log CONFIGS (map (fun ck => (name (fst ck), snd ck)) st) H r ->
    (forall ev, In ev H -> event_returned ev = true) ->
    r = inr tt /\ checked_of H = st.
Proof.
  induction st as [|[c k] st IH]; intros Hreg H r HL Hall; simpl in HL.
  - inversion HL. split; reflexivity.
  - assert (Hc : Dict.get (name c) CONFIGS = Some c)
      by (apply (Hreg c k); left; reflexivity).
    assert (Hreg' : forall c' k', In (c', k') st ->
                      Dict.get (name c') CONFIGS = Some c')
      by (intros c' k' Hin; apply (Hreg c' k'); right; exact Hin).
    inversion HL as [|n k0 c0 rest log r0 Hget HL'|n k0 c0 rest text Hget
                     |n k0 c0 rest e Hget He|n k0 rest Hget]; subst;
      try (rewrite Hc in Hget; injection Hget as <-).
    + destruct (IH Hreg' _ _ HL') as [-> Hch].
      * intros ev Hin. apply Hall. right. exact Hin.
      * split; [reflexivity | simpl; rewrite Hch; reflexivity].
    + specialize (Hall _ (or_introl eq_refl)). discriminate Hall.
    + specialize (Hall _ (or_introl eq_refl)). discriminate Hall.
    + rewrite Hc in Hget. discriminate Hget.
Qed.

Lemma inject_all_returns CONFIGS vars_of its :
  (forall n k, In (n, k) its -> Dict.get n CONFIGS <> None) ->
  forall env, fst (inject_all CONFIGS vars_of its env) = inr tt.
Proof.
  induction its as [|[n k] rest IH]; simpl; intros Hall env.
  - reflexivity.
  - destruct (Dict.get n CONFIGS) as [c|] eqn:Hc.
    + apply IH. intros n' k' Hin. apply (Hall n' k'). right. exact Hin.
    + exfalso. apply (Hall n k); [left; reflexivity | exact Hc].
Qed.

Lemma in_firstn_in (A : Type) (n : nat) :
  forall (l : list A) (x : A), In x (firstn n l) -> In x l.
Proof.
  induction n as [|n IH]; intros [|y l] x H; simpl in H;
    try contradiction.
  destruct H as [->|H]; [left; reflexivity | right; exact (IH l x H)].
Qed.

(** What a run leaves in the map of an environment that had no running
    container, over a well-formed registry: the containers started, in start
    order, under the names of their specs, which are found in the registry. *)
Lemma fresh_run_map CONFIGS names cfgs R rr m :
  registry_wf CONFIGS ->
  resolve_container_set CONFIGS names = inr cfgs ->
  run_log [] cfgs R rr m ->
  m = map (fun ck => (name (fst ck), snd ck)) (started_of R) /\
  (forall c k, In (c, k) (started_of R) ->
     Dict.get (name c) CONFIGS = Some c).
Proof.
  intros Hwf Hres HR.
  destruct (resolve_returned _ _ Hres) as [Hsome Hnd].
  destruct (resolved_names Hwf _ _ Hsome) as [Hnames Hfound].
  split.
  - apply (run_log_appends HR).
    + rewrite Hnames. exact Hnd.
    + intros c' _. reflexivity.
  - intros c k Hin. apply Hfound.
    apply started_of_In in Hin. destruct Hin as [mB Hin].
    pose proof (run_log_in_order HR) as Hord.
    assert (Hc : In c (run_configs_of R)).
    { clear - Hin. induction R as [|ev R IH]; [destruct Hin | ].
      destruct Hin as [->|Hin]; simpl; [left; reflexivity | ].
      destruct ev; simpl; try (apply IH; exact Hin).
      right. apply IH. exact Hin. }
    rewrite Hord in Hc. exact (in_firstn_in _ _ _ Hc).
Qed.

(** X11. When the declared list resolves and every engine call of the run
    returns, over a registry that stores every spec under its own name and
    for an environment with no running container before, the setup hook
    returns: the image of every resolved spec was pulled, the containers
    started are those of the resolved specs in declared order, each was
    health-checked, in the same order, and the running-container map lists
    them in that order under the names of their specs. *)
Theorem tox_runtest_pre_all_returned (W : Type) (engine : Engine W)
    (venv : VirtualEnv) (s s' : State W) (r : result unit)
    (new : list event) (cfgs : list ContainerConfig) :
  tox_runtest_pre engine venv s = (r, s') ->
  engine_calls s' = engine_calls s ++ new ->
  registry_wf (CONTAINER_CONFIGS s) ->
  env_map s venv = [] ->
  resolve_container_set (CONTAINER_CONFIGS s) (docker venv) = inr cfgs ->
  (forall ev, In ev new -> event_returned ev = true) ->
  r = inr tt /\
  (forall c, In c cfgs -> In (Pull c (inr tt)) new) /\
  map fst (started_of new) = cfgs /\
  checked_of new = started_of new /\
  Dict.items (env_map s' venv)
  = map (fun ck => (name (fst ck), snd ck)) (started_of new).
Proof.
  intros Hpre Hlog Hwf Hfresh Hres Hall.
  destruct (@tox_runtest_pre_log _ _ _ _ _ _ _ Hpre Hlog)
    as [touched [Hrun Ht]].
  destruct (pre_run_phases Hrun)
    as [(-> & _ & _ & _)
       |(cfgs' & P & R & m & rr & -> & Hres' & HP & HR & Hcase)].
  - exfalso.
    destruct (@pre_run_stopped_early _ _ _ _ _ _ _ _ Hrun) as [[e He]|(cfgs' & e & _ & HP)].
    + rewrite Hres in He. discriminate He.
    + pose proof (@pull_log_all_returned _ _ _ HP Hall) as Hc. discriminate Hc.
  - rewrite Hres in Hres'. injection Hres' as <-.
    pose proof (pull_log_all_pulls HP) as HallP.
    pose proof (run_log_all_runs HR) as HallR.
    assert (Hmap : env_map s' venv = m)
      by (unfold env_map; rewrite Ht; reflexivity).
    rewrite Hfresh in HR.
    destruct (@fresh_run_map _ _ _ _ _ _ Hwf Hres HR) as [Hm Hfound].
    destruct Hcase as [(e0 & -> & _ & -> & _)
                      |(-> & H & rh & -> & HH & Hcase)].
    + exfalso.
      assert (Hc : (inl e0 : result unit) = inr tt).
      { apply (@run_log_all_returned _ _ _ _ _ HR). intros ev Hin. apply Hall.
        apply in_or_app. right. exact Hin. }
      discriminate Hc.
    + pose proof (health_log_all_checks HH) as HallH.
      rewrite Hm in HH. unfold Dict.items in HH.
      destruct (@health_log_all_returned _ _ Hfound _ _ HH) as [-> Hch].
      { intros ev Hin. apply Hall. apply in_or_app. right.
        apply in_or_app. right. exact Hin. }
      destruct Hcase as [(e0 & Hc & _)|(_ & Hinj)]; [discriminate Hc | ].
      assert (Hspecs : forall n k, In (n, k) (Dict.items m) ->
                         Dict.get n (CONTAINER_CONFIGS s) <> None).
      { intros n k Hin. rewrite Hm in Hin. unfold Dict.items in Hin.
        apply in_map_iff in Hin. destruct Hin as [[c' k''] [Heq Hst]].
        simpl in Heq. injection Heq as <- _.
        rewrite (Hfound c' k'' Hst). discriminate. }
      assert (Hr : r = inr tt).
      { pose proof (@inject_all_returns _ (get_env_vars engine) _ Hspecs
                      (setenv s (envname venv))) as Hret.
        rewrite Hinj in Hret. exact Hret. }
      rewrite !started_of_app, !checked_of_app, Hmap.
      destruct (pulls_read HallP) as (-> & -> & _).
      destruct (checks_read HallH) as (-> & _).
      rewrite (runs_read HallR), app_nil_r. simpl.
      repeat split.
      * exact Hr.
      * intros c Hin. apply in_or_app. left.
        rewrite (pull_log_returned HP).
        apply in_map with (f := fun c => Pull c (inr tt)). exact Hin.
      * exact (run_log_returned HR).
      * exact Hch.
      * exact Hm.
Qed.

(** ** Setup followed by teardown *)

Lemma containers_and_configs_of_started CONFIGS
    (st : list (ContainerConfig * RunningContainer)) :
  (forall c k, In (c, k) st -> Dict.get (name c) CONFIGS = Some c) ->
  containers_and_configs_of CONFIGS
    (map (fun ck => (name (fst ck), snd ck)) st) = inr st.
Proof.
  induction st as [|[c k] st IH]; simpl; intro Hreg.
  - reflexivity.
  - rewrite (Hreg c k (or_introl eq_refl)).
    rewrite IH by (intros c' k' Hin; apply (Hreg c' k'); right; exact Hin).
    reflexivity.
Qed.

Lemma containers_and_configs_of_missing CONFIGS its :
  forall n k,
    In (n, k) its -> Dict.get n CONFIGS = None ->
    exists n' k',
      containers_and_configs_of CONFIGS its = inl (KeyError n') /\
      In (n', k') its /\ Dict.get n' CONFIGS = None.
Proof.
  induction its as [|[n0 k0] rest IH]; simpl; intros n k Hin Hn.
  - destruct Hin.
  - destruct (Dict.get n0 CONFIGS) as [c|] eqn:Hc.
    + destruct Hin as [Heq|Hin].
      * injection Heq as -> ->. rewrite Hn in Hc. discriminate Hc.
      * destruct (IH n k Hin Hn) as (n' & k' & -> & Hin' & Hn').
        exists n', k'. repeat split; [right; exact Hin' | exact Hn'].
    + exists n0, k0. repeat split; [left; reflexivity | exact Hc].
Qed.

(** X12. Teardown stops what setup started.  Over a registry that stores
    every spec under its own name, for an environment with no running
    container before its setup: if the setup got as far as the start loop
    (whether it then returned, or a start or a health check raised), the
    teardown that follows makes exactly one [stop_containers] call, with
    exactly the containers the setup started, in start order, each with
    its spec. *)
Theorem teardown_stops_what_setup_started (W : Type) (engine : Engine W)
    (venv : VirtualEnv) (s s1 s2 : State W) (r1 r2 : result unit)
    (new : list event) :
  tox_runtest_pre engine venv s = (r1, s1) ->
  engine_calls s1 = engine_calls s ++ new ->
  registry_wf (CONTAINER_CONFIGS s) ->
  env_map s venv = [] ->
  tox_runtest_post engine venv s1 = (r2, s2) ->
  (ENV_CONTAINERS s1 = ENV_CONTAINERS s /\
   exists e, r1 = inl e /\ forall ev, In ev new -> is_pull ev = true) \/
  engine_calls s2 = engine_calls s1 ++ [Stop (started_of new) r2].
Proof.
  intros Hpre Hlog Hwf Hfresh Hpost.
  pose proof (proj1 (@tox_runtest_pre_spec _ _ _ _ _ _ Hpre)) as Hconf.
  destruct (@tox_runtest_pre_log _ _ _ _ _ _ _ Hpre Hlog)
    as [touched [Hrun Ht]].
  destruct (pre_run_phases Hrun)
    as [(-> & _ & [e ->] & Hall)
       |(cfgs & P & R & m & rr & -> & Hres & HP & HR & Hcase)].
  - left. split; [exact Ht | ]. exists e. split; [reflexivity | ].
    rewrite Forall_forall in Hall. exact Hall.
  - right. rewrite Hfresh in HR.
    destruct (@fresh_run_map _ _ _ _ _ _ Hwf Hres HR) as [Hm Hfound].
    pose proof (pull_log_all_pulls HP) as HallP.
    pose proof (run_log_all_runs HR) as HallR.
    assert (Hst : started_of new = started_of R).
    { destruct Hcase as [(e0 & _ & _ & -> & _)|(_ & H & rh & -> & HH & _)].
      - exact (proj2 (pulls_then_runs_read HallP HallR)).
      - rewrite !started_of_app.
        destruct (pulls_read HallP) as (-> & _ & _).
        destruct (checks_read (health_log_all_checks HH)) as (-> & _).
        rewrite app_nil_r. reflexivity. }
    apply tox_runtest_post_spec in Hpost.
    destruct Hpost as (_ & _ & _ & Hpost).
    rewrite Ht, Hconf, Hm in Hpost. unfold Dict.items in Hpost.
    rewrite (containers_and_configs_of_started _ _ Hfound) in Hpost.
    rewrite Hst. exact Hpost.
Qed.

(** X13. When the setup of an environment that has no entry in
    [ENV_CONTAINERS] raises without having issued a start call (the list
    does not resolve, or a pull raises), the teardown that follows raises
    [AttributeError] and makes no engine call. *)
Theorem teardown_after_early_failure_raises (W : Type) (engine : Engine W)
    (venv : VirtualEnv) (s s1 : State W) (e : exn) (new : list event) :
  tox_runtest_pre engine venv s = (inl e, s1) ->
  engine_calls s1 = engine_calls s ++ new ->
  Dict.get (envname venv) (ENV_CONTAINERS s) = None ->
  (forall ev, In ev new -> is_run ev = false) ->
  tox_runtest_post engine venv s1
  = (inl (AttributeError "'list' object has no attribute 'items'"), s1).
Proof.
  intros Hpre Hlog Hnone Hnorun.
  destruct (@tox_runtest_pre_log _ _ _ _ _ _ _ Hpre Hlog)
    as [touched [Hrun Ht]].
  assert (Hfresh : env_map s venv = [])
    by (unfold env_map; rewrite Hnone; reflexivity).
  destruct (pre_run_phases Hrun)
    as [(-> & _ & _ & _)
       |(cfgs & P & R & m & rr & -> & Hres & HP & HR & Hcase)].
  - unfold tox_runtest_post, bind, gets, lift.
    rewrite Ht, Hnone. reflexivity.
  - exfalso. rewrite Hfresh in HR.
    assert (HR0 : R = []).
    { destruct R as [|ev R]; [reflexivity | exfalso].
      pose proof (run_log_all_runs HR) as HallR.
      inversion HallR as [|ev' R' Hev _]; subst.
      rewrite Hnorun in Hev; [discriminate Hev | ].
      destruct Hcase as [(e0 & _ & _ & -> & _)|(_ & H & rh & -> & _)];
        apply in_or_app; right; left; reflexivity. }
    subst R. inversion HR; subst.
    destruct Hcase as [(e0 & Hc & _)|(_ & H & rh & _ & HH & Hcase)];
      [discriminate Hc | ].
    unfold Dict.items in HH. inversion HH; subst.
    destruct Hcase as [(e0 & Hc & _)|(_ & Hinj)]; [discriminate Hc | ].
    simpl in Hinj. discriminate Hinj.
Qed.

(** ** [tox_runtest_post]: edge behaviour *)

(** X14. When an entry of the environment's running-container map has a
    name with no spec in [CONTAINER_CONFIGS], the teardown hook raises
    [KeyError] for such a name before [stop_containers] is called: no
    container of the environment is stopped and the state is untouched. *)
Theorem tox_runtest_post_missing_spec (W : Type) (engine : Engine W)
    (venv : VirtualEnv) (s : State W) (m : Dict.t RunningContainer)
    (n : string) (k : RunningContainer) :
  Dict.get (envname venv) (ENV_CONTAINERS s) = Some m ->
  In (n, k) (Dict.items m) ->
  Dict.get n (CONTAINER_CONFIGS s) = None ->
  exists n' k',
    tox_runtest_post engine venv s = (inl (KeyError n'), s) /\
    In (n', k') (Dict.items m) /\
    Dict.get n' (CONTAINER_CONFIGS s) = None.
Proof.
  intros Hm Hin Hn.
  destruct (containers_and_configs_of_missing _ _ _ _ Hin Hn)
    as (n' & k' & Hc & Hin' & Hn').
  exists n', k'. repeat split; try assumption.
  unfold tox_runtest_post, bind, gets, lift. rewrite Hm. simpl.
  rewrite Hc. reflexivity.
Qed.

(** X15. The teardown hook leaves [CONTAINER_CONFIGS] and the variable maps
    as they were and makes at most one engine call, a [stop_containers]
    call; when it makes the call, the outcome of the hook is the outcome of
    the call, so an exception of [stop_containers] propagates. *)
Theorem tox_runtest_post_outcome (W : Type) (engine : Engine W)
    (venv : VirtualEnv) (s s' : State W) (r : result unit) :
  tox_runtest_post engine venv s = (r, s') ->
  CONTAINER_CONFIGS s' = CONTAINER_CONFIGS s /\
  setenv s' = setenv s /\
  ((s' = s /\ exists e, r = inl e) \/
   exists l, engine_calls s' = engine_calls s ++ [Stop l r]).
Proof.
  intro H. apply tox_runtest_post_spec in H.
  destruct H as (H1 & _ & H3 & H). repeat split; try assumption.
  destruct (Dict.get (envname venv) (ENV_CONTAINERS s)) as [m|].
  - destruct (containers_and_configs_of (CONTAINER_CONFIGS s) (Dict.items m))
      as [e|l].
    + left. destruct H as [-> ->]. split; [reflexivity | ].
      exists e. reflexivity.
    + right. exists l. exact H.
  - left. destruct H as [-> ->]. split; [reflexivity | ].
    eexists. reflexivity.
Qed.

(** ** Where the variables of an environment come from *)

(** X16. The setup hook invents no variable: a variable of the
    environment's variable map after the hook either was in the map before,
    with the same value, or is exported with that value by a container of
    the environment's running-container map. *)
Theorem tox_runtest_pre_setenv_origin (W : Type) (engine : Engine W)
    (venv : VirtualEnv) (s s' : State W) (r : result unit)
    (var val : string) :
  tox_runtest_pre engine venv s = (r, s') ->
  Dict.get var (setenv s' (envname venv)) = Some val ->
  Dict.get var (setenv s (envname venv)) = Some val \/
  exists n k c,
    In (n, k) (Dict.items (env_map s' venv)) /\
    Dict.get n (CONTAINER_CONFIGS s) = Some c /\
    In (var, val) (Dict.items (get_env_vars engine c k)).
Proof.
  intros Hpre Hv. apply tox_runtest_pre_spec in Hpre.
  destruct Hpre as (_ & _ & _ & new & touched & _ & Hrun & Ht).
  destruct (pre_run_phases Hrun)
    as [(_ & Henv & _)
       |(cfgs & P & R & m & rr & -> & _ & _ & _ & Hcase)].
  - left. rewrite <- Henv. exact Hv.
  - assert (Hmap : env_map s' venv = m)
      by (unfold env_map; rewrite Ht; reflexivity).
    destruct Hcase as [(e0 & _ & _ & _ & Henv)
                      |(_ & H & rh & _ & _ & [(e0 & _ & _ & Henv)
                                             |(_ & Hinj)])].
    + left. rewrite <- Henv. exact Hv.
    + left. rewrite <- Henv. exact Hv.
    + rewrite Hmap. eapply inject_all_origin; eassumption.
Qed.

Lemma inject_all_first_exporter CONFIGS vars_of before :
  forall env env' n k rest c l1 var val l2,
    inject_all CONFIGS vars_of (before ++ (n, k) :: rest) env
    = (inr tt, env') ->
    Dict.get var env = None ->
    (forall n' k' c', In (n', k') before ->
       Dict.get n' CONFIGS = Some c' ->
       ~ In var (map fst (Dict.items (vars_of c' k')))) ->
    Dict.get n CONFIGS = Some c ->
    Dict.items (vars_of c k) = l1 ++ (var, val) :: l2 ->
    ~ In var (map fst l1) ->
    Dict.get var env' = Some val.
Proof.
  induction before as [|[n0 k0] before IH]; simpl;
    intros env env' n k rest c l1 var val l2 H Hv Hbefore Hc Hvars Hl1.
  - rewrite Hc in H. eapply inject_all_preserves; [exact H | ].
    eapply update_if_not_present_first; eassumption.
  - destruct (Dict.get n0 CONFIGS) as [c0|] eqn:Hc0; [ | discriminate H].
    eapply IH; [exact H | | | exact Hc | exact Hvars | exact Hl1].
    + rewrite update_if_not_present_absent; [exact Hv | ].
      exact (Hbefore n0 k0 c0 (or_introl eq_refl) Hc0).
    + intros n' k' c' Hin Hc'.
      exact (Hbefore n' k' c' (or_intror Hin) Hc').
Qed.

(** X17. Among containers, the first exporter wins: when the setup hook
    returns, a variable that was not in the variable map before has the
    value given by the first container of the running-container map, in map
    order, that exports it. *)
Theorem tox_runtest_pre_first_exporter_wins (W : Type) (engine : Engine W)
    (venv : VirtualEnv) (s s' : State W)
    (before rest : list (string * RunningContainer)) (n : string)
    (k : RunningContainer) (c : ContainerConfig)
    (l1 l2 : list (string * string)) (var val : string) :
  tox_runtest_pre engine venv s = (inr tt, s') ->
  Dict.items (env_map s' venv) = before ++ (n, k) :: rest ->
  Dict.get n (CONTAINER_CONFIGS s) = Some c ->
  Dict.items (get_env_vars engine c k) = l1 ++ (var, val) :: l2 ->
  ~ In var (map fst l1) ->
  (forall n' k' c', In (n', k') before ->
     Dict.get n' (CONTAINER_CONFIGS s) = Some c' ->
     ~ In var (map fst (Dict.items (get_env_vars engine c' k')))) ->
  Dict.get var (setenv s (envname venv)) = None ->
  Dict.get var (setenv s' (envname venv)) = Some val.
Proof.
  intros Hpre Hitems Hc Hvars Hl1 Hbefore Hv.
  apply tox_runtest_pre_spec in Hpre.
  destruct Hpre as (_ & _ & _ & new & touched & _ & Hrun & Ht).
  destruct (pre_run_phases Hrun)
    as [(_ & _ & [e He] & _)
       |(cfgs & P & R & m & rr & -> & _ & _ & _ & Hcase)];
    [discriminate He | ].
  assert (Hmap : env_map s' venv = m)
    by (unfold env_map; rewrite Ht; reflexivity).
  rewrite Hmap in Hitems.
  destruct Hcase as [(e0 & _ & He & _)
                    |(_ & H & rh & _ & _ & [(e0 & _ & He & _)
                                           |(_ & Hinj)])];
    try discriminate He.
  rewrite Hitems in Hinj.
  eapply inject_all_first_exporter; eassumption.
Qed.

(** ** An environment that declares no container *)

(** X18. For an environment whose [docker] list is empty the setup hook
    issues no pull and no start call, and still registers the environment
    in [ENV_CONTAINERS], with the map it had, or an empty map if it had
    none. *)
Theorem tox_runtest_pre_no_containers (W : Type) (engine : Engine W)
    (venv : VirtualEnv) (s s' : State W) (r : result unit)
    (new : list event) :
  docker venv = [] ->
  tox_runtest_pre engine venv s = (r, s') ->
  engine_calls s' = engine_calls s ++ new ->
  (forall ev, In ev new -> is_health_check ev = true) /\
  Dict.get (envname venv) (ENV_CONTAINERS s') = Some (env_map s venv).
Proof.
  intros Hdocker Hpre Hlog.
  destruct (@tox_runtest_pre_log _ _ _ _ _ _ _ Hpre Hlog)
    as [touched [Hrun Ht]].
  rewrite Hdocker in Hrun.
  destruct (pre_run_phases Hrun)
    as [(-> & _ & _ & _)
       |(cfgs & P & R & m & rr & -> & Hres & HP & HR & Hcase)].
  - exfalso.
    destruct (@pre_run_stopped_early _ _ _ _ _ _ _ _ Hrun)
      as [[e He]|(cfgs & e & Hres & HP)].
    + discriminate He.
    + injection Hres as <-. inversion HP.
  - injection Hres as <-. inversion HP; subst. inversion HR; subst.
    split; [ | exact Ht].
    destruct Hcase as [(e0 & Hc & _)|(_ & H & rh & -> & HH & _)];
      [discriminate Hc | ].
    simpl. pose proof (health_log_all_checks HH) as Hall.
    rewrite Forall_forall in Hall. exact Hall.
Qed.

(** * Further examples *)

(** Both sections of the configuration are registered. *)
Lemma tox_configure_registers_witness :
  (forall n, In n (discover_container_configs example_reader db_web_sections) ->
     exists c,
       parse_container_config example_reader db_web_sections n
         (discover_container_configs example_reader db_web_sections) = inr c /\
       Dict.get n (CONTAINER_CONFIGS (snd configure_run)) = Some c) /\
  (forall n, ~ In n (discover_container_configs example_reader db_web_sections) ->
     Dict.get n (CONTAINER_CONFIGS (snd configure_run))
     = Dict.get n (CONTAINER_CONFIGS empty_state)).
Proof.
  refine (@tox_configure_registers nat ExampleConfig example_reader
            db_web_sections empty_state (snd configure_run) _).
  vm_compute. reflexivity.
Defined.

(** Configuration makes no engine call. *)
Lemma tox_configure_touches_registry_only_witness :
  ENV_CONTAINERS (snd configure_run) = ENV_CONTAINERS empty_state /\
  setenv (snd configure_run) = setenv empty_state /\
  engine_state (snd configure_run) = engine_state empty_state /\
  engine_calls (snd configure_run) = engine_calls empty_state.
Proof.
  refine (@tox_configure_touches_registry_only nat ExampleConfig
            example_reader db_web_sections empty_state (snd configure_run)
            (fst configure_run) _).
  vm_compute. reflexivity.
Defined.

(** The parse of [broken], the second section, raises: [db] is registered
    by then. *)
Lemma tox_configure_raises_witness :
  (validate_dont_stop (discover_container_configs strict_reader broken_section)
     (docker_dont_stop strict_reader broken_section)
   = inl (ValueError (OtherText "image is required")) /\
   snd configure_broken_run = empty_state) \/
  (exists before n rest,
     discover_container_configs strict_reader broken_section
     = before ++ n :: rest /\
     parse_container_config strict_reader broken_section n
       (discover_container_configs strict_reader broken_section)
     = inl (ValueError (OtherText "image is required")) /\
     (forall m, In m before ->
        exists c,
          parse_container_config strict_reader broken_section m
            (discover_container_configs strict_reader broken_section)
          = inr c /\
          Dict.get m (CONTAINER_CONFIGS (snd configure_broken_run)) = Some c) /\
     (forall m, ~ In m before ->
        Dict.get m (CONTAINER_CONFIGS (snd configure_broken_run))
        = Dict.get m (CONTAINER_CONFIGS empty_state))).
Proof.
  refine (@tox_configure_raises nat ExampleConfig strict_reader
            broken_section empty_state (snd configure_broken_run)
            (ValueError (OtherText "image is required")) _).
  vm_compute. reflexivity.
Defined.

(** The registry built from an empty one is well formed. *)
Lemma tox_configure_keeps_registry_wf_witness :
  registry_wf (CONTAINER_CONFIGS (snd configure_run)).
Proof.
  refine (@tox_configure_keeps_registry_wf nat ExampleConfig example_reader
            db_web_sections empty_state (snd configure_run)
            (fst configure_run) _ _ _).
  - intros n c H. simpl in H. injection H as <-. reflexivity.
  - intros n c H. discriminate H.
  - vm_compute. reflexivity.
Defined.

(** The setup of [py] leaves the other environments alone. *)
Lemma tox_runtest_pre_touches_own_environment_witness :
  CONTAINER_CONFIGS (snd web_unhealthy_run)
  = CONTAINER_CONFIGS (example_state no_variables) /\
  (forall e, e <> envname (py ["db"; "web"; "cache"]) ->
     Dict.get e (ENV_CONTAINERS (snd web_unhealthy_run))
     = Dict.get e (ENV_CONTAINERS (example_state no_variables))) /\
  (forall e, e <> envname (py ["db"; "web"; "cache"]) ->
     setenv (snd web_unhealthy_run) e = setenv (example_state no_variables) e).
Proof.
  refine (@tox_runtest_pre_touches_own_environment nat
            (example_engine "" "web") (py ["db"; "web"; "cache"])
            (example_state no_variables) (snd web_unhealthy_run)
            (fst web_unhealthy_run) _).
  vm_compute. reflexivity.
Defined.

(** The start of [web] raises after [db] was started: the container of
    [db] stays registered under [db]. *)
Lemma tox_runtest_pre_start_raises_witness :
  Dict.get (name db_config)
    (env_map (snd start_raises_run) (py ["db"; "web"; "cache"]))
  = Some (container_for db_config).
Proof.
  refine (proj2 (proj2 (proj2 (proj2 (proj2
    (@tox_runtest_pre_start_raises nat (faulty_engine "web" "")
       (py ["db"; "web"; "cache"]) (example_state no_variables)
       (snd start_raises_run) (fst start_raises_run)
       (engine_calls (snd start_raises_run))
       (removelast (engine_calls (snd start_raises_run))) []
       web_config [("db", container_for db_config)]
       (EngineError "start failed") _ _ _)))))
    example_configs_wf db_config (container_for db_config) _).
  - vm_compute. reflexivity.
  - vm_compute. reflexivity.
  - vm_compute. reflexivity.
  - vm_compute. left. reflexivity.
Defined.

(** The health check of [web] ends in [HealthCheckFailed] and the hook
    returns. *)
Lemma tox_runtest_pre_swallows_health_check_failed_witness :
  fst web_unhealthy_run = inr tt.
Proof.
  refine (proj2
    (@tox_runtest_pre_swallows_health_check_failed nat
       (example_engine "" "web") (py ["db"; "web"; "cache"])
       (example_state no_variables) (snd web_unhealthy_run)
       (fst web_unhealthy_run) (engine_calls (snd web_unhealthy_run))
       web_config (container_for web_config) "timed out" _ _ _)
    example_configs_wf _).
  - vm_compute. reflexivity.
  - vm_compute. reflexivity.
  - vm_compute. do 7 right. left. reflexivity.
  - vm_compute. reflexivity.
Defined.

(** The health check of [web] raises another exception: the hook raises
    it and injects nothing. *)
Lemma tox_runtest_pre_health_check_raises_witness :
  ([] : list event) = [] /\
  fst check_raises_run = inl (EngineError "connection refused") /\
  setenv (snd check_raises_run) (envname (py ["db"; "web"; "cache"]))
  = setenv (example_state no_variables) (envname (py ["db"; "web"; "cache"])).
Proof.
  refine (@tox_runtest_pre_health_check_raises nat (faulty_engine "" "web")
            (py ["db"; "web"; "cache"]) (example_state no_variables)
            (snd check_raises_run) (fst check_raises_run)
            (engine_calls (snd check_raises_run))
            (removelast (engine_calls (snd check_raises_run))) []
            web_config (container_for web_config)
            (EngineError "connection refused") _ _ _ _);
    vm_compute; reflexivity.
Defined.

(** [db] and [web] are pulled, started, health-checked and registered. *)
Lemma tox_runtest_pre_all_returned_witness :
  fst all_returned_run = inr tt /\
  (forall c, In c [db_config; web_config] ->
     In (Pull c (inr tt)) (engine_calls (snd all_returned_run))) /\
  map fst (started_of (engine_calls (snd all_returned_run)))
  = [db_config; web_config] /\
  checked_of (engine_calls (snd all_returned_run))
  = started_of (engine_calls (snd all_returned_run)) /\
  Dict.items (env_map (snd all_returned_run) (py ["db"; "web"]))
  = map (fun ck => (name (fst ck), snd ck))
      (started_of (engine_calls (snd all_returned_run))).
Proof.
  refine (@tox_runtest_pre_all_returned nat (example_engine "" "")
            (py ["db"; "web"]) (example_state no_variables)
            (snd all_returned_run) (fst all_returned_run)
            (engine_calls (snd all_returned_run)) [db_config; web_config]
            _ _ example_configs_wf _ _ _).
  - vm_compute. reflexivity.
  - vm_compute. reflexivity.
  - vm_compute. reflexivity.
  - vm_compute. reflexivity.
  - vm_compute. intros ev H.
    repeat (destruct H as [<-|H]; [reflexivity | ]). destruct H.
Defined.

(** After the setup in which the health check of [web] failed, the
    teardown stops [db], [web] and [cache]. *)
Lemma teardown_stops_what_setup_started_witness :
  (ENV_CONTAINERS (snd web_unhealthy_run)
   = ENV_CONTAINERS (example_state no_variables) /\
   exists e,
     fst web_unhealthy_run = inl e /\
     forall ev, In ev (engine_calls (snd web_unhealthy_run)) ->
                is_pull ev = true) \/
  engine_calls (snd web_unhealthy_teardown)
  = engine_calls (snd web_unhealthy_run)
    ++ [Stop (started_of (engine_calls (snd web_unhealthy_run)))
          (fst web_unhealthy_teardown)].
Proof.
  refine (@teardown_stops_what_setup_started nat (example_engine "" "web")
            (py ["db"; "web"; "cache"]) (example_state no_variables)
            (snd web_unhealthy_run) (snd web_unhealthy_teardown)
            (fst web_unhealthy_run) (fst web_unhealthy_teardown)
            (engine_calls (snd web_unhealthy_run))
            _ _ example_configs_wf _ _);
    vm_compute; reflexivity.
Defined.

(** After the setup in which the pull of [web] raised, the teardown
    raises. *)
Lemma teardown_after_early_failure_raises_witness :
  tox_runtest_post (example_engine "web" "") (py ["db"; "web"])
    (snd web_pull_raises_run)
  = (inl (AttributeError "'list' object has no attribute 'items'"),
     snd web_pull_raises_run).
Proof.
  refine (@teardown_after_early_failure_raises nat (example_engine "web" "")
            (py ["db"; "web"]) (example_state no_variables)
            (snd web_pull_raises_run) (EngineError "pull failed")
            (engine_calls (snd web_pull_raises_run)) _ _ _ _).
  - vm_compute. reflexivity.
  - vm_compute. reflexivity.
  - vm_compute. reflexivity.
  - vm_compute. intros ev H.
    repeat (destruct H as [<-|H]; [reflexivity | ]). destruct H.
Defined.

(** The entry [ghost] of the map has no spec. *)
Lemma tox_runtest_post_missing_spec_witness :
  exists n' k',
    tox_runtest_post (example_engine "" "") (py ["db"]) orphan_state
    = (inl (KeyError n'), orphan_state) /\
    In (n', k') (Dict.items [("ghost", container_for db_config)]) /\
    Dict.get n' (CONTAINER_CONFIGS orphan_state) = None.
Proof.
  refine (@tox_runtest_post_missing_spec nat (example_engine "" "")
            (py ["db"]) orphan_state [("ghost", container_for db_config)]
            "ghost" (container_for db_config) _ _ _).
  - vm_compute. reflexivity.
  - left. reflexivity.
  - vm_compute. reflexivity.
Defined.

(** The teardown of [db] makes one stop call. *)
Lemma tox_runtest_post_outcome_witness :
  CONTAINER_CONFIGS (snd db_teardown) = CONTAINER_CONFIGS db_running_state /\
  setenv (snd db_teardown) = setenv db_running_state /\
  ((snd db_teardown = db_running_state /\
    exists e, fst db_teardown = inl e) \/
   exists l,
     engine_calls (snd db_teardown)
     = engine_calls db_running_state ++ [Stop l (fst db_teardown)]).
Proof.
  refine (@tox_runtest_post_outcome nat (example_engine "" "") (py ["db"])
            db_running_state (snd db_teardown) (fst db_teardown) _).
  vm_compute. reflexivity.
Defined.

(** [web_HOST] comes from a container of the map. *)
Lemma tox_runtest_pre_setenv_origin_witness :
  Dict.get "web_HOST"
    (setenv (example_state no_variables)
       (envname (py ["db"; "web"; "cache"]))) = Some "127.0.0.1" \/
  exists n k c,
    In (n, k)
       (Dict.items (env_map (snd web_unhealthy_run)
                      (py ["db"; "web"; "cache"]))) /\
    Dict.get n (CONTAINER_CONFIGS (example_state no_variables)) = Some c /\
    In ("web_HOST", "127.0.0.1")
       (Dict.items (get_env_vars (example_engine "" "web") c k)).
Proof.
  refine (@tox_runtest_pre_setenv_origin nat (example_engine "" "web")
            (py ["db"; "web"; "cache"]) (example_state no_variables)
            (snd web_unhealthy_run) (fst web_unhealthy_run)
            "web_HOST" "127.0.0.1" _ _);
    vm_compute; reflexivity.
Defined.

(** [db] and [web] both export [HOST]: the value is that of [db], which
    comes first in the map. *)
Lemma tox_runtest_pre_first_exporter_wins_witness :
  Dict.get "HOST" (setenv (snd shared_variable_run) (envname (py ["db"; "web"])))
  = Some "db-1".
Proof.
  refine (@tox_runtest_pre_first_exporter_wins nat shared_variable_engine
            (py ["db"; "web"]) (example_state no_variables)
            (snd shared_variable_run)
            [] [("web", container_for web_config)]
            "db" (container_for db_config) db_config
            [] [] "HOST" "db-1" _ _ _ _ _ _ _).
  - vm_compute. reflexivity.
  - vm_compute. reflexivity.
  - vm_compute. reflexivity.
  - vm_compute. reflexivity.
  - intros [].
  - intros n' k' c' [].
  - vm_compute. reflexivity.
Defined.

(** With [docker] empty, [py] is registered with an empty map. *)
Lemma tox_runtest_pre_no_containers_witness :
  (forall ev, In ev (engine_calls (snd no_containers_run)) ->
              is_health_check ev = true) /\
  Dict.get (envname (py [])) (ENV_CONTAINERS (snd no_containers_run))
  = Some (env_map (example_state no_variables) (py [])).
Proof.
  refine (@tox_runtest_pre_no_containers nat (example_engine "" "") (py [])
            (example_state no_variables) (snd no_containers_run)
            (fst no_containers_run) (engine_calls (snd no_containers_run))
            _ _ _);
    vm_compute; reflexivity.
Defined.
